(** * Startup Co-Founder Agent: the outline parser and the deck assembler

    A shallow embedding of [startup_cofounder_agent/generator.py],
    [startup_cofounder_agent/ppt_generator.py] and the [main] of
    [startup_cofounder_agent/cli.py].

    - A Python [str] is a sequence of Unicode code points: [list N].
    - A slide is a Python [dict] from [str] keys to [str] values; the only
      keys the program ever writes or reads are the literals ["title"] and
      ["content"], so a slide is a [gmap string (list N)].
    - Exceptions are values of [exn]; code that may raise returns [res].
    - What lies outside the program is a parameter: how the completion
      service answers, which characters the presentation library takes in
      a text, and which requests the operating system carries out. *)

From stdpp Require Import base numbers list strings gmap.
From Stdlib Require Import Ascii String QArith.

Local Open Scope string_scope.
Local Open Scope list_scope.
Local Open Scope N_scope.

(** ** Python strings *)

Abbreviation str := (list N) (only parsing).

(** The code points of an ASCII literal. *)
Definition py (s : string) : str := map N_of_ascii (list_ascii_of_string s).

Definition DOT : N := 46.
Definition COLON : N := 58.
Definition SPACE : N := 32.
Definition LF : N := 10.
Definition CR : N := 13.

(** [str.isspace] on one code point (CPython's [_PyUnicode_IsWhitespace]);
    this is the set that [str.strip()] removes. *)
Definition is_space (c : N) : bool :=
  ((9 <=? c) && (c <=? 13)) || ((28 <=? c) && (c <=? 32))
  || (c =? 133) || (c =? 160) || (c =? 5760)
  || ((8192 <=? c) && (c <=? 8202))
  || (c =? 8232) || (c =? 8233) || (c =? 8239) || (c =? 8287) || (c =? 12288).

(** The line boundaries of [str.splitlines] (CPython's
    [_PyUnicode_IsLinebreak]). *)
Definition is_linebreak (c : N) : bool :=
  ((10 <=? c) && (c <=? 13)) || ((28 <=? c) && (c <=? 30))
  || (c =? 133) || (c =? 8232) || (c =? 8233).

Fixpoint drop_while (p : N -> bool) (s : str) : str :=
  match s with
  | [] => []
  | c :: s' => if p c then drop_while p s' else s
  end.

(** [c in s] for a one-character needle. *)
Fixpoint contains (c : N) (s : str) : bool :=
  match s with
  | [] => false
  | d :: s' => (d =? c) || contains c s'
  end.

(** [s.find(c)]: the index of the first occurrence. *)
Fixpoint find (c : N) (s : str) : option nat :=
  match s with
  | [] => None
  | d :: s' => if d =? c then Some O else S <$> find c s'
  end.

(** [s.split(c, 1)]: at most one cut, at the first occurrence. *)
Definition split1 (c : N) (s : str) : list str :=
  match find c s with
  | Some i => [take i s; drop (S i) s]
  | None => [s]
  end.

Definition lstrip (s : str) : str := drop_while is_space s.

(** The right scan of [strip] is the left scan of the reversed string. *)
Definition rstrip (s : str) : str := rev (drop_while is_space (rev s)).

(** [s.strip()]. *)
Definition strip (s : str) : str := rstrip (lstrip s).

(** [s.lstrip(chars)]. *)
Definition lstrip_chars (chars : str) (s : str) : str :=
  drop_while (fun c => contains c chars) s.

(** [s.splitlines()]: scan to the next line boundary, emit the line without
    it, and step over the boundary, a CR LF pair counting as one.  [cur]
    holds the characters of the current line, last one first.  A line is
    emitted at the end of the string only when it has characters. *)
Fixpoint splitlines_from (cur : str) (s : str) : list str :=
  match s with
  | [] => match cur with [] => [] | _ => [rev cur] end
  | c :: s' =>
      if is_linebreak c then
        rev cur ::
          match s' with
          | d :: s'' =>
              if (c =? CR) && (d =? LF) then splitlines_from [] s''
              else splitlines_from [] s'
          | [] => splitlines_from [] s'
          end
      else splitlines_from (c :: cur) s'
  end.

Definition splitlines (s : str) : list str := splitlines_from [] s.

(** ** Exceptions *)

Inductive exn : Type :=
| ValueError (msg : string)
| IndexError
| RuntimeError (msg : str)
| OSError (msg : string)
| UnicodeEncodeError (msg : string)
| BaseError (name : string).

Inductive res (A : Type) : Type :=
| Ok (a : A)
| Raise (e : exn).
Arguments Ok {A} a.
Arguments Raise {A} e.

Definition bind {A B} (m : res A) (k : A -> res B) : res B :=
  match m with
  | Ok a => k a
  | Raise e => Raise e
  end.

Notation "'do' x <- m ; k" := (bind m (fun x => k))
  (at level 10, x name, m at level 100, k at level 200).
Notation "'do' ' p <- m ; k" := (bind m (fun x => match x with p => k end))
  (at level 10, p pattern, m at level 100, k at level 200).

(** [a, b = l]: unpacking a list into exactly two names. *)
Definition unpack2 {A} (l : list A) : res (A * A) :=
  match l with
  | [a; b] => Ok (a, b)
  | [] => Raise (ValueError "not enough values to unpack (expected 2, got 0)")
  | [_] => Raise (ValueError "not enough values to unpack (expected 2, got 1)")
  | _ => Raise (ValueError "too many values to unpack (expected 2)")
  end.

(** ** generator.py: the outline parse step *)

Abbreviation slide := (gmap string (list N)) (only parsing).

Definition mk_slide (title content : str) : slide :=
  {[ "title" := title; "content" := content ]}.

Definition fallback (raw : str) : slide := mk_slide (py "Pitch Deck") raw.

(** One iteration of the [for line in raw.splitlines()] loop; [slides] is the
    list built so far. *)
Definition outline_step (slides : list slide) (line : str) : res (list slide) :=
  match strip line with
  | [] => Ok slides
  | _ =>
      if contains DOT line then
        do '(number, rest) <- unpack2 (split1 DOT line);
        let rest := strip rest in
        if contains COLON rest then
          do '(title, content) <- unpack2 (split1 COLON rest);
          let title := strip title in
          let content := lstrip_chars (py "- ") (strip content) in
          Ok (slides ++ [mk_slide title content])
        else Ok slides
      else Ok slides
  end.

Fixpoint for_each_line (lines : list str) (slides : list slide) : res (list slide) :=
  match lines with
  | [] => Ok slides
  | line :: lines' =>
      do slides' <- outline_step slides line;
      for_each_line lines' slides'
  end.

(** The body of the [try] block. *)
Definition parse_body (raw : str) : res (list slide) :=
  do slides <- for_each_line (splitlines raw) [];
  match slides with
  | [] => Ok (slides ++ [fallback raw])
  | _ => Ok slides
  end.

(** Lines 208-230 of [generate_pitch_deck_outline]: from the completion text
    to the list of slides, [except Exception] included. *)
Definition parse_outline (raw : str) : list slide :=
  match parse_body raw with
  | Ok slides => slides
  | Raise _ => [fallback raw]
  end.

(** ** generator.py: the completion client *)

(** [bool(x)] of an optional string: [None] and the empty string are falsy. *)
Definition truthy (x : option (list N)) : bool :=
  match x with
  | Some (_ :: _) => true
  | _ => false
  end.

(** [a or b]. *)
Definition py_or (a b : option (list N)) : option (list N) :=
  if truthy a then a else b.

Record message := { role : list N; content : list N }.

(** The arguments of one [openai.ChatCompletion.create] call. *)
Record request := {
  model : list N;
  messages : list message;
  temperature : Q
}.

(** What the code reads and writes outside its arguments.  [openai] is
    [None] when the import failed (the module-level name is then [None]),
    and otherwise holds the module's [api_key] attribute.  [sent] is the
    list of requests that went to the service, the latest first. *)
Record world := {
  openai : option (option (list N));
  environ : gmap string (list N);
  sent : list request
}.

Definition set_api_key (key : option (list N)) (w : world) : world :=
  {| openai := Some key; environ := environ w; sent := sent w |}.

Definition send (r : request) (w : world) : world :=
  {| openai := openai w; environ := environ w; sent := r :: sent w |}.

Definition DEFAULT_MODEL : list N := py "gpt-4".

Definition _ensure_openai (api_key : option (list N)) (w : world) : res unit * world :=
  match openai w with
  | None =>
      (Raise (RuntimeError (py
         "The openai package is not installed. Install it with `pip install openai`.")), w)
  | Some _ =>
      let key := py_or api_key (environ w !! "OPENAI_API_KEY") in
      if negb (truthy key) then
        (Raise (RuntimeError (py
           "No OpenAI API key was provided. Set the OPENAI_API_KEY environment variable or pass api_key explicitly.")), w)
      else (Ok tt, set_api_key key w)
  end.

(** The prompt of [generate_pitch_deck_outline]; U+2011 and U+2013 are the
    two characters of the literal outside ASCII. *)
Definition outline_prompt (idea : list N) : list N :=
  (py "You are an expert pitch deck designer. Create an outline for a 10"
   ++ [8209] ++ py "slide "
   ++ py "pitch deck for the startup idea below. Follow this structure: (1) "
   ++ py "Business Overview, (2) Problem, (3) Solution & Value Proposition, "
   ++ py "(4) Market Size & Analysis, (5) Product & Business Model, (6) Go"
   ++ [8209] ++ py "to" ++ [8209] ++ py "Market "
   ++ py "Strategy, (7) Competitive Analysis, (8) Team, (9) Financials & Traction, "
   ++ py "(10) Ask & Use of Funds. For each slide, provide a title and 3"
   ++ [8211] ++ py "5 bullet "
   ++ py "points summarising the key messages you would include on that slide."
   ++ [LF; LF]
   ++ py "Business idea: " ++ idea ++ [LF; LF]
   ++ py "Respond in a structured format. Use numbered slides followed by the title and its bullet points.")%list.

(** The prompts of the three text generators. *)
Definition market_prompt (idea : list N) : list N :=
  (py "You are assisting a founder in understanding their market. "
   ++ py "Given the business idea below, perform a concise market analysis. "
   ++ py "Your analysis should cover:" ++ [LF]
   ++ py "- Demand: describe who the customers are and their pain points." ++ [LF]
   ++ py "- Market size: estimate the addressable market size and growth." ++ [LF]
   ++ py "- Economic indicators: mention relevant economic factors (e.g. disposable income, technology adoption)."
   ++ [LF]
   ++ py "- Location and saturation: note any geographic considerations and whether the market is crowded."
   ++ [LF]
   ++ py "- Pricing considerations: discuss typical pricing strategies in this space."
   ++ [LF]
   ++ py "- Competitor analysis: identify a few key competitors, their strengths and weaknesses, opportunities, and barriers to entry."
   ++ [LF; LF]
   ++ py "Business idea: " ++ idea ++ [LF; LF]
   ++ py "Respond in a professional tone with headings for each section.")%list.

Definition pricing_prompt (idea : list N) : list N :=
  (py "You are a pricing strategist. Propose a tiered pricing structure for "
   ++ py "the following business idea. Provide at least three tiers (e.g. Basic, "
   ++ py "Pro, Premium), with a clear name, monthly price in USD, and the key "
   ++ py "features or usage limits each tier includes. Consider cost analysis, "
   ++ py "market research for price sensitivities, segmentation, and value "
   ++ py "proposition for each customer group. Highlight how each tier adds "
   ++ py "additional value compared with the lower tier." ++ [LF; LF]
   ++ py "Business idea: " ++ idea ++ [LF; LF]
   ++ py "Present your answer in a bullet list where each tier starts with the tier name and price, followed by a colon and its features.")%list.

Definition landing_prompt (idea : list N) : list N :=
  (py "You are a marketing copywriter. Write concise and persuasive landing page "
   ++ py "copy for the business idea below. Include:" ++ [LF]
   ++ py "- A bold headline summarising the core value proposition." ++ [LF]
   ++ py "- A short paragraph describing the product or service and its benefits."
   ++ [LF]
   ++ py "- A clear call to action encouraging visitors to sign up or learn more."
   ++ [LF; LF]
   ++ py "Business idea: " ++ idea ++ [LF; LF]
   ++ py "Use an enthusiastic yet professional tone.")%list.

(** How a call into a library ends: it returns; it raises an exception of
    class [Exception], of which the code uses only the text; or it raises
    one outside [Exception] ([KeyboardInterrupt], [SystemExit]), named by
    its class. *)
Inductive outcome (A : Type) : Type :=
| Returns (a : A)
| Throws (text : list N)
| Escapes (name : string).
Arguments Returns {A} a.
Arguments Throws {A} text.
Arguments Escapes {A} name.

Section Service.

(** The hosted service is outside the program.  [create] is
    [openai.ChatCompletion.create] and [reply] is the lookup
    [completion["choices"][0]["message"]["content"]] together with the
    attribute access [.strip] on what it finds.  Each returns, or raises an
    [Exception], or raises what [except Exception] does not catch. *)
Variable completion : Type.
Variable create : world -> request -> outcome completion.
Variable reply : completion -> outcome (list N).

Definition _chat_completion (prompt : list N) (api_key : option (list N))
    (model : list N) (w : world) : res (list N) * world :=
  match _ensure_openai api_key w with
  | (Raise e, w1) => (Raise e, w1)
  | (Ok _, w1) =>
      let r := {| model := model;
                  messages :=
                    [ {| role := py "system";
                         content := py "You are an expert startup consultant." |};
                      {| role := py "user"; content := prompt |} ];
                  temperature := 7 # 10 |} in
      match create w1 r with
      | Throws exc =>
          (Raise (RuntimeError (py "Failed to call OpenAI API: " ++ exc)), send r w1)
      | Escapes name => (Raise (BaseError name), send r w1)
      | Returns c =>
          match reply c with
          | Returns text => (Ok (strip text), send r w1)
          | Throws exc =>
              (Raise (RuntimeError
                 (py "Unexpected response format from OpenAI API: " ++ exc)),
               send r w1)
          | Escapes name => (Raise (BaseError name), send r w1)
          end
      end
  end.

Definition generate_pitch_deck_outline (idea : list N) (api_key : option (list N))
    (w : world) : res (list (gmap string (list N))) * world :=
  match _chat_completion (outline_prompt idea) api_key DEFAULT_MODEL w with
  | (Raise e, w1) => (Raise e, w1)
  | (Ok raw, w1) => (Ok (parse_outline raw), w1)
  end.

Definition generate_market_analysis (idea : list N) (api_key : option (list N))
    (w : world) : res (list N) * world :=
  _chat_completion (market_prompt idea) api_key DEFAULT_MODEL w.

Definition generate_pricing_tiers (idea : list N) (api_key : option (list N))
    (w : world) : res (list N) * world :=
  _chat_completion (pricing_prompt idea) api_key DEFAULT_MODEL w.

Definition generate_landing_page_copy (idea : list N) (api_key : option (list N))
    (w : world) : res (list N) * world :=
  _chat_completion (landing_prompt idea) api_key DEFAULT_MODEL w.

End Service.

(** ** ppt_generator.py *)

Definition SEMICOLON : N := 59.

(** [s.replace(a, b)] for one-character [a] and [b]. *)
Definition replace (a b : N) (s : list N) : list N :=
  map (fun c => if c =? a then b else c) s.

(** [s.split(c)]: a cut at every occurrence. *)
Fixpoint split (c : N) (s : list N) : list (list N) :=
  match s with
  | [] => [[]]
  | d :: s' =>
      if d =? c then [] :: split c s'
      else match split c s' with
           | l :: ls => (d :: l) :: ls
           | [] => [[d]]
           end
  end.

(** The part of python-pptx that [create_pitch_deck] touches.  A slide is
    the list of its placeholder shapes, in document order; a shape carries
    the paragraphs of its text frame. *)
Record paragraph := { p_text : list N; p_level : nat }.

Record shape := {
  is_placeholder : bool;
  ph_idx : nat;
  ph_type : N;
  paragraphs : list paragraph
}.

Record presentation := {
  slide_layouts : list (list shape);
  prs_slides : list (list shape)
}.

(** [Presentation()] opens the library's default template: its layouts and
    no slide. *)
Definition Presentation (template : list (list shape)) : presentation :=
  {| slide_layouts := template; prs_slides := [] |}.

(** [seq[i]]. *)
Definition getitem {A} (l : list A) (i : nat) : res A :=
  match l !! i with
  | Some x => Ok x
  | None => Raise IndexError
  end.

(** [prs.slides.add_slide(layout)]: the new slide gets the layout's
    placeholders and goes last. *)
Definition add_slide (layout : list shape) (prs : presentation) : presentation :=
  {| slide_layouts := slide_layouts prs; prs_slides := prs_slides prs ++ [layout] |}.

Definition set_paragraphs (ps : list paragraph) (sh : shape) : shape :=
  {| is_placeholder := is_placeholder sh; ph_idx := ph_idx sh;
     ph_type := ph_type sh; paragraphs := ps |}.

(** The list comprehension of line 61. *)
Definition bullet_lines (content : list N) : list (list N) :=
  map strip
    (List.filter (fun line => match strip line with [] => false | _ => true end)
       (split LF (replace SEMICOLON LF content))).

(** What the library raises when it is given a text with a character that
    XML cannot hold. *)
Definition XML_ERROR : exn :=
  ValueError
    "All strings must be XML compatible: Unicode or ASCII, no NULL bytes or control characters".

(** The files written so far, the latest first: [prs.save(path)] adds one. *)
Abbreviation files := (list (list N * presentation)) (only parsing).

Section Pptx.

(** Two things are decided outside the program: which characters the
    library takes in a text (an assignment of any other raises
    [XML_ERROR]), and whether [prs.save] can write the file ([None]) or
    raises. *)
Variable xml_char_ok : N -> bool.
Variable save_error : list N -> presentation -> files -> option exn.

Definition xml_ok (t : list N) : bool := forallb xml_char_ok t.

(** [shape.text = t]: one paragraph per line of [t]. *)
Definition set_text (t : list N) (sh : shape) : res shape :=
  if xml_ok t then
    Ok (set_paragraphs (map (fun l => {| p_text := l; p_level := 0 |}) (split LF t)) sh)
  else Raise XML_ERROR.

(** [if slide.shapes.title: slide.shapes.title.text = title]; the title
    shape is the first placeholder whose index is 0, [None] without one. *)
Fixpoint set_title (title : list N) (sl : list shape) : res (list shape) :=
  match sl with
  | [] => Ok []
  | sh :: sl' =>
      if Nat.eqb (ph_idx sh) 0 then
        do sh' <- set_text title sh;
        Ok (sh' :: sl')
      else
        do sl'' <- set_title title sl';
        Ok (sh :: sl'')
  end.

(** The body of the [if] of lines 55-74, on the shape that passed the test:
    the frame is cleared to one empty paragraph; when there are bullet
    lines, each is assigned to a paragraph of its own, in order. *)
Definition fill_frame (content : list N) (sh : shape) : res shape :=
  match bullet_lines content with
  | [] => Ok (set_paragraphs [ {| p_text := []; p_level := 0 |} ] sh)
  | lines =>
      if forallb xml_ok lines then
        Ok (set_paragraphs (map (fun l => {| p_text := l; p_level := 0 |}) lines) sh)
      else Raise XML_ERROR
  end.

(** [for shape in slide.placeholders]: the first shape that passes the test
    is filled and the loop breaks. *)
Fixpoint fill_body (content : list N) (sl : list shape) : res (list shape) :=
  match sl with
  | [] => Ok []
  | sh :: sl' =>
      if is_placeholder sh && (ph_type sh =? 1) then
        do sh' <- fill_frame content sh;
        Ok (sh' :: sl')
      else
        do sl'' <- fill_body content sl';
        Ok (sh :: sl'')
  end.

(** One iteration of [for index, slide_data in enumerate(slides)]. *)
Definition deck_step (index : nat) (slide_data : gmap string (list N))
    (prs : presentation) : res presentation :=
  let title := default [] (slide_data !! "title") in
  let content := default [] (slide_data !! "content") in
  do slide_layout <-
    (if Nat.eqb index 0 then getitem (slide_layouts prs) 0
     else getitem (slide_layouts prs) 1);
  do titled <- set_title title slide_layout;
  do filled <- fill_body content titled;
  Ok (add_slide filled prs).

Fixpoint deck_loop (index : nat) (slides : list (gmap string (list N)))
    (prs : presentation) : res presentation :=
  match slides with
  | [] => Ok prs
  | slide_data :: slides' =>
      do prs' <- deck_step index slide_data prs;
      deck_loop (S index) slides' prs'
  end.

Definition create_pitch_deck (template : list (list shape))
    (slides : list (gmap string (list N))) (output_path : list N)
    (fs : files) : res unit * files :=
  match slides with
  | [] => (Raise (ValueError "No slides provided to create_pitch_deck()."), fs)
  | _ =>
      match deck_loop 0 slides (Presentation template) with
      | Ok prs =>
          match save_error output_path prs fs with
          | None => (Ok tt, (output_path, prs) :: fs)
          | Some e => (Raise e, fs)
          end
      | Raise e => (Raise e, fs)
      end
  end.

End Pptx.

(** The first two layouts of the default template, as new slides get them:
    "Title Slide" (centred title, subtitle) and "Title and Content" (title,
    object); every placeholder starts with one empty paragraph. *)
Definition title_slide_layout : list shape :=
  [ {| is_placeholder := true; ph_idx := 0; ph_type := 3;
       paragraphs := [ {| p_text := []; p_level := 0 |} ] |};
    {| is_placeholder := true; ph_idx := 1; ph_type := 4;
       paragraphs := [ {| p_text := []; p_level := 0 |} ] |} ].

Definition title_and_content_layout : list shape :=
  [ {| is_placeholder := true; ph_idx := 0; ph_type := 1;
       paragraphs := [ {| p_text := []; p_level := 0 |} ] |};
    {| is_placeholder := true; ph_idx := 1; ph_type := 7;
       paragraphs := [ {| p_text := []; p_level := 0 |} ] |} ].

Definition default_template : list (list shape) :=
  [ title_slide_layout; title_and_content_layout ].

(** ** cli.py *)

(** What a run of the program touches: the world of the completion client,
    the directories made, the text files and the decks written, and the
    lines printed; each list has the latest entry first. *)
Record system := {
  sys_world : world;
  dirs : list (list N);
  text_files : list (list N * list N);
  deck_files : list (list N * presentation);
  stdout : list (list N)
}.

(** The requests of the program to the operating system. *)
Inductive syscall : Type :=
| Mkdir (path : list N)
| Print (line : list N)
| WriteText (path text : list N)
| Save (path : list N) (prs : presentation).

Definition prog (A : Type) : Type := system -> res A * system.

Definition and_then {A B} (m : prog A) (k : A -> prog B) : prog B :=
  fun s =>
    match m s with
    | (Ok a, s1) => k a s1
    | (Raise e, s1) => (Raise e, s1)
    end.

Notation "'run' x <- m ; k" := (and_then m (fun x => k))
  (at level 10, x name, m at level 100, k at level 200).

(** A computation that touches nothing. *)
Definition lift {A} (r : res A) : prog A := fun s => (r, s).

(** A call into generator.py. *)
Definition in_world {A} (f : world -> res A * world) : prog A :=
  fun s =>
    let (r, w) := f (sys_world s) in
    (r, {| sys_world := w; dirs := dirs s; text_files := text_files s;
           deck_files := deck_files s; stdout := stdout s |}).

(** A call into ppt_generator.py. *)
Definition in_decks {A}
    (f : list (list N * presentation) -> res A * list (list N * presentation))
    : prog A :=
  fun s =>
    let (r, fs) := f (deck_files s) in
    (r, {| sys_world := sys_world s; dirs := dirs s; text_files := text_files s;
           deck_files := fs; stdout := stdout s |}).

Section Cli.

(** The service, as in generator.py, and the library's test of characters,
    as in ppt_generator.py.  [resolve] is [Path(p).expanduser().resolve()]
    and [joinpath] is [dir / name], on the strings of the paths;
    [template] is the default template of the presentation library.
    [os_error] says, for a request to the operating system in a state,
    whether it is carried out ([None]) or raises. *)
Variable completion : Type.
Variable create : world -> request -> outcome completion.
Variable reply : completion -> outcome (list N).
Variable xml_char_ok : N -> bool.
Variable resolve : list N -> res (list N).
Variable joinpath : list N -> list N -> list N.
Variable template : list (list shape).
Variable os_error : syscall -> system -> option exn.

(** [print(line)]. *)
Definition print (line : list N) : prog unit :=
  fun s =>
    match os_error (Print line) s with
    | Some e => (Raise e, s)
    | None =>
        (Ok tt, {| sys_world := sys_world s; dirs := dirs s;
                   text_files := text_files s; deck_files := deck_files s;
                   stdout := line :: stdout s |})
    end.

(** [path.mkdir(parents=True, exist_ok=True)]. *)
Definition mkdir (path : list N) : prog unit :=
  fun s =>
    match os_error (Mkdir path) s with
    | Some e => (Raise e, s)
    | None =>
        (Ok tt, {| sys_world := sys_world s; dirs := path :: dirs s;
                   text_files := text_files s; deck_files := deck_files s;
                   stdout := stdout s |})
    end.

(** [path.write_text(text, encoding="utf-8")]. *)
Definition write_text (path text : list N) : prog unit :=
  fun s =>
    match os_error (WriteText path text) s with
    | Some e => (Raise e, s)
    | None =>
        (Ok tt, {| sys_world := sys_world s; dirs := dirs s;
                   text_files := (path, text) :: text_files s;
                   deck_files := deck_files s; stdout := stdout s |})
    end.

(** [ppt_generator.create_pitch_deck(slides, str(deck_path))]. *)
Definition save_deck (slides : list (gmap string (list N))) (path : list N)
    : prog unit :=
  fun s =>
    in_decks
      (create_pitch_deck xml_char_ok (fun p prs _ => os_error (Save p prs) s)
         template slides path) s.

(** [main], from the parsed arguments on. *)
Definition main (idea output_dir : list N) (api_key : option (list N)) : prog unit :=
  run output_dir <- lift (resolve output_dir);
  run _ <- mkdir output_dir;
  run _ <- print (py "Generating market analysis...");
  run market_analysis <-
    in_world (generate_market_analysis completion create reply idea api_key);
  run _ <- print (py "Generating pricing tiers...");
  run pricing_tiers <-
    in_world (generate_pricing_tiers completion create reply idea api_key);
  run _ <- print (py "Generating landing page copy...");
  run landing_page <-
    in_world (generate_landing_page_copy completion create reply idea api_key);
  run _ <- print (py "Generating pitch deck outline...");
  run slides <-
    in_world (generate_pitch_deck_outline completion create reply idea api_key);
  let analysis_path := joinpath output_dir (py "market_analysis.txt") in
  let pricing_path := joinpath output_dir (py "pricing_tiers.txt") in
  let landing_path := joinpath output_dir (py "landing_page.txt") in
  let deck_path := joinpath output_dir (py "pitch_deck.pptx") in
  run _ <- write_text analysis_path market_analysis;
  run _ <- write_text pricing_path pricing_tiers;
  run _ <- write_text landing_path landing_page;
  run _ <- save_deck slides deck_path;
  run _ <- print ([LF; 10004] ++ py " Market analysis written to " ++ analysis_path);
  run _ <- print ([10004] ++ py " Pricing tiers written to " ++ pricing_path);
  run _ <- print ([10004] ++ py " Landing page copy written to " ++ landing_path);
  print ([10004] ++ py " Pitch deck written to " ++ deck_path).

End Cli.

(** ** More vocabulary *)

(** [sep.join(lines)]. *)
Fixpoint join (sep : list N) (lines : list (list N)) : list N :=
  match lines with
  | [] => []
  | [l] => l
  | l :: ls => l ++ sep ++ join sep ls
  end.

(** The package is there and a key comes from the argument or from the
    environment. *)
Definition configured (api_key : option (list N)) (w : world) : bool :=
  match openai w with
  | None => false
  | Some _ => truthy api_key || truthy (environ w !! "OPENAI_API_KEY")
  end.

(** The request that [_chat_completion] builds. *)
Definition chat_request (prompt model : list N) : request :=
  {| model := model;
     messages := [ {| role := py "system";
                      content := py "You are an expert startup consultant." |};
                   {| role := py "user"; content := prompt |} ];
     temperature := 7 # 10 |}.

(** The prompt a request carries: the content of its last message. *)
Definition user_prompt (r : request) : list N :=
  match messages r with
  | [_; m] => content m
  | _ => []
  end.

(** What a slide keeps of its layout: everything but the text. *)
Definition frame_of (sh : shape) : bool * nat * N :=
  (is_placeholder sh, ph_idx sh, ph_type sh).

(** The test of line 55. *)
Definition is_body (sh : shape) : bool := is_placeholder sh && (ph_type sh =? 1).

(** The characters of XML 1.0: tab, line feed, carriage return, and the
    code points from U+0020 on that are neither surrogates nor U+FFFE or
    U+FFFF.  An instance of the library's test for the examples. *)
Definition xml_char (c : N) : bool :=
  (c =? 9) || (c =? 10) || (c =? 13)
  || ((32 <=? c) && (c <=? 55295))
  || ((57344 <=? c) && (c <=? 65533))
  || ((65536 <=? c) && (c <=? 1114111)).

(** A file system on which every save works. *)
Definition saves (path : list N) (prs : presentation)
    (fs : list (list N * presentation)) : option exn := None.

(** An operating system that carries out every request. *)
Definition obliging (call : syscall) (s : system) : option exn := None.

(** The title and the content that [create_pitch_deck] reads from a
    record, and whether the library takes both. *)
Definition title_of (d : gmap string (list N)) : list N := default [] (d !! "title").
Definition content_of (d : gmap string (list N)) : list N := default [] (d !! "content").

Definition texts_ok (xml_char_ok : N -> bool) (d : gmap string (list N)) : bool :=
  xml_ok xml_char_ok (title_of d) && xml_ok xml_char_ok (content_of d).

(** The slide made from a layout for a record: the title is set, then the
    body is filled. *)
Definition slide_of (xml_char_ok : N -> bool) (layout : list shape)
    (d : gmap string (list N)) : res (list shape) :=
  do titled <- set_title xml_char_ok (title_of d) layout;
  fill_body xml_char_ok (content_of d) titled.

(** The slides made from one layout for a list of records, in order. *)
Fixpoint slides_of (xml_char_ok : N -> bool) (layout : list shape)
    (ds : list (gmap string (list N))) : res (list (list shape)) :=
  match ds with
  | [] => Ok []
  | d :: ds' =>
      do sl <- slide_of xml_char_ok layout d;
      do ss <- slides_of xml_char_ok layout ds';
      Ok (sl :: ss)
  end.

(** The record with the two keys the assembler reads filled in: a key that
    is missing maps to the empty string. *)
Definition with_defaults (slide_data : gmap string (list N)) : gmap string (list N) :=
  <["title" := default [] (slide_data !! "title")]>
    (<["content" := default [] (slide_data !! "content")]> slide_data).

(** ** Vocabulary of the specification *)

(** The text before the first [c] (all of [s] without one) and the text
    after it (empty without one). *)
Fixpoint before_first (c : N) (s : list N) : list N :=
  match s with
  | [] => []
  | d :: s' => if d =? c then [] else d :: before_first c s'
  end.

Fixpoint after_first (c : N) (s : list N) : list N :=
  match s with
  | [] => []
  | d :: s' => if d =? c then s' else after_first c s'
  end.

(** A line has the expected shape when it holds a [.] and, after the first
    one, a [:]. *)
Definition has_shape (line : list N) : bool :=
  contains DOT line && contains COLON (after_first DOT line).

(** The record of a line that has the shape. *)
Definition record_of (line : list N) : gmap string (list N) :=
  let rest := after_first DOT line in
  mk_slide (strip (before_first COLON rest))
           (lstrip_chars (py "- ") (strip (after_first COLON rest))).

(** The number of occurrences of [c]. *)
Definition count (c : N) (s : list N) : nat :=
  List.length (List.filter (N.eqb c) s).

Definition is_digit (c : N) : bool := (48 <=? c) && (c <=? 57).

(** A well-formed line, "<n>. <title>: <bullets>": a non-empty run of digits
    up to the first [.], and a [:] somewhere after it. *)
Definition well_formed (line : list N) : bool :=
  match before_first DOT line with
  | [] => false
  | n => forallb is_digit n && has_shape line
  end.

(** The record the specification announces for a well-formed line: the
    trimmed text between the first [.] and the first [:], and the trimmed
    text after that [:]. *)
Definition announced_record (line : list N) : gmap string (list N) :=
  mk_slide (strip (before_first COLON (after_first DOT line)))
           (strip (after_first COLON line)).

(** The record the code builds: the same, with the run of [-] and space
    characters at the start of the content removed. *)
Definition built_record (line : list N) : gmap string (list N) :=
  mk_slide (strip (before_first COLON (after_first DOT line)))
           (lstrip_chars (py "- ") (strip (after_first COLON line))).

(** ** Facts about the string operations *)

Section StringFacts.

Implicit Types (c d : N) (s t : list N) (p : N -> bool).

Lemma contains_In c s : contains c s = true <-> In c s.
Proof.
  induction s as [|d s IH]; simpl; [intuition discriminate|].
  rewrite orb_true_iff, IH, N.eqb_eq. tauto.
Qed.

Lemma contains_app c s t : contains c (s ++ t) = contains c s || contains c t.
Proof.
  induction s as [|d s IH]; simpl; [reflexivity|].
  rewrite IH. apply orb_assoc.
Qed.

Lemma before_first_app c s t :
  contains c s = false -> before_first c (s ++ c :: t) = s.
Proof.
  induction s as [|d s IH]; simpl; intros H.
  - now rewrite N.eqb_refl.
  - apply orb_false_iff in H as [H1 H2]. rewrite H1. f_equal. auto.
Qed.

Lemma after_first_app c s t :
  contains c s = false -> after_first c (s ++ c :: t) = t.
Proof.
  induction s as [|d s IH]; simpl; intros H.
  - now rewrite N.eqb_refl.
  - apply orb_false_iff in H as [H1 H2]. rewrite H1. auto.
Qed.

Lemma contains_before_first c s : contains c (before_first c s) = false.
Proof.
  induction s as [|d s IH]; simpl; [reflexivity|].
  destruct (d =? c) eqn:E; simpl; [reflexivity|]. now rewrite E.
Qed.

Lemma first_cut c s :
  contains c s = true -> s = before_first c s ++ c :: after_first c s.
Proof.
  induction s as [|d s IH]; simpl; [discriminate|].
  destruct (d =? c) eqn:E; simpl; intros H.
  - apply N.eqb_eq in E. now subst.
  - f_equal. auto.
Qed.

(** [split(c, 1)] gives two pieces exactly when [c] occurs. *)
Lemma split1_found c s :
  contains c s = true -> split1 c s = [before_first c s; after_first c s].
Proof.
  unfold split1. induction s as [|d s IH]; simpl; [discriminate|].
  destruct (d =? c) eqn:E; simpl; intros H; [reflexivity|].
  specialize (IH H). destruct (find c s) as [i|]; simpl in *.
  - now inversion IH.
  - discriminate.
Qed.

Lemma split1_missing c s : contains c s = false -> split1 c s = [s].
Proof.
  unfold split1. induction s as [|d s IH]; simpl; [reflexivity|].
  intros H. apply orb_false_iff in H as [H1 H2]. rewrite H1.
  specialize (IH H2). destruct (find c s); [discriminate | reflexivity].
Qed.

Lemma drop_while_idem p s : drop_while p (drop_while p s) = drop_while p s.
Proof.
  induction s as [|d s IH]; simpl; [reflexivity|].
  destruct (p d) eqn:E; [exact IH|]. simpl. now rewrite E.
Qed.

Lemma drop_while_snoc p s d :
  drop_while p (s ++ [d]) =
  match drop_while p s with
  | [] => if p d then [] else [d]
  | r => r ++ [d]
  end.
Proof.
  induction s as [|e s IH]; simpl; [reflexivity|].
  destruct (p e); [exact IH | reflexivity].
Qed.

Lemma drop_while_nil p s : drop_while p s = [] <-> forallb p s = true.
Proof.
  induction s as [|d s IH]; simpl; [tauto|].
  destruct (p d); simpl; [exact IH | intuition discriminate].
Qed.

Lemma contains_drop_while p c s :
  p c = false -> contains c (drop_while p s) = contains c s.
Proof.
  intros Hc. induction s as [|d s IH]; simpl; [reflexivity|].
  destruct (p d) eqn:E; [|reflexivity].
  rewrite IH. destruct (d =? c) eqn:E'; [|reflexivity].
  apply N.eqb_eq in E'. congruence.
Qed.

Lemma contains_rev c s : contains c (rev s) = contains c s.
Proof.
  induction s as [|d s IH]; simpl; [reflexivity|].
  rewrite contains_app, IH. simpl. rewrite orb_false_r. apply orb_comm.
Qed.

(** The right scan, read from the left. *)
Lemma rstrip_cons d s :
  rstrip (d :: s) =
  match rstrip s with
  | [] => if is_space d then [] else [d]
  | r => d :: r
  end.
Proof.
  unfold rstrip. simpl. rewrite drop_while_snoc.
  destruct (drop_while is_space (rev s)) as [|e r] eqn:E; simpl.
  - now destruct (is_space d).
  - rewrite rev_app_distr. simpl.
    destruct (rev r ++ [e]) eqn:E'; [|reflexivity].
    now destruct (rev r).
Qed.

Lemma rstrip_idem s : rstrip (rstrip s) = rstrip s.
Proof. unfold rstrip. now rewrite rev_involutive, drop_while_idem. Qed.

Lemma lstrip_rstrip s : lstrip (rstrip s) = rstrip (lstrip s).
Proof.
  induction s as [|d s IH]; [reflexivity|].
  rewrite rstrip_cons. unfold lstrip in *. simpl.
  destruct (is_space d) eqn:E.
  - destruct (rstrip s) as [|e r] eqn:Er; simpl.
    + now rewrite <- IH.
    + rewrite E. now rewrite <- IH.
  - rewrite rstrip_cons.
    destruct (rstrip s); simpl; now rewrite E.
Qed.

Lemma strip_lstrip s : strip (lstrip s) = strip s.
Proof. unfold strip, lstrip. now rewrite drop_while_idem. Qed.

Lemma strip_rstrip s : strip (rstrip s) = strip s.
Proof. unfold strip. now rewrite lstrip_rstrip, rstrip_idem. Qed.

Lemma contains_lstrip c s :
  is_space c = false -> contains c (lstrip s) = contains c s.
Proof. apply contains_drop_while. Qed.

Lemma contains_rstrip c s :
  is_space c = false -> contains c (rstrip s) = contains c s.
Proof.
  intros Hc. unfold rstrip.
  now rewrite contains_rev, contains_drop_while, contains_rev.
Qed.

Lemma contains_strip c s :
  is_space c = false -> contains c (strip s) = contains c s.
Proof.
  intros Hc. unfold strip. now rewrite contains_rstrip, contains_lstrip.
Qed.

(** Cutting at a character that is not white space commutes with the
    two scans of [strip]. *)
Lemma before_first_lstrip c s :
  is_space c = false -> before_first c (lstrip s) = lstrip (before_first c s).
Proof.
  intros Hc. unfold lstrip. induction s as [|d s IH]; simpl; [reflexivity|].
  destruct (is_space d) eqn:Ed.
  - destruct (d =? c) eqn:E.
    + apply N.eqb_eq in E. congruence.
    + simpl. now rewrite Ed.
  - simpl. destruct (d =? c); simpl; [reflexivity|]. now rewrite Ed.
Qed.

Lemma after_first_lstrip c s :
  is_space c = false -> after_first c (lstrip s) = after_first c s.
Proof.
  intros Hc. unfold lstrip. induction s as [|d s IH]; simpl; [reflexivity|].
  destruct (is_space d) eqn:Ed; [|reflexivity].
  destruct (d =? c) eqn:E; [|exact IH].
  apply N.eqb_eq in E. congruence.
Qed.

Lemma rstrip_keeps c d s :
  is_space c = false -> contains c s = true -> rstrip (d :: s) = d :: rstrip s.
Proof.
  intros Hc H. rewrite rstrip_cons.
  destruct (rstrip s) eqn:E; [|reflexivity].
  rewrite <- (contains_rstrip c s Hc), E in H. discriminate.
Qed.

Lemma before_first_rstrip c s :
  is_space c = false -> contains c s = true ->
  before_first c (rstrip s) = before_first c s.
Proof.
  intros Hc. induction s as [|d s IH]; simpl; [discriminate|].
  destruct (d =? c) eqn:E; simpl; intros H.
  - apply N.eqb_eq in E. subst d. rewrite rstrip_cons.
    destruct (rstrip s); simpl; rewrite ?Hc; simpl; now rewrite N.eqb_refl.
  - rewrite (rstrip_keeps c) by assumption. simpl. rewrite E. f_equal. auto.
Qed.

Lemma after_first_rstrip c s :
  is_space c = false -> contains c s = true ->
  after_first c (rstrip s) = rstrip (after_first c s).
Proof.
  intros Hc. induction s as [|d s IH]; simpl; [discriminate|].
  destruct (d =? c) eqn:E; simpl; intros H.
  - apply N.eqb_eq in E. subst d. rewrite rstrip_cons.
    destruct (rstrip s); simpl; rewrite ?Hc; simpl; now rewrite N.eqb_refl.
  - rewrite (rstrip_keeps c) by assumption. simpl. rewrite E. auto.
Qed.

Lemma strip_before_first c s :
  is_space c = false -> contains c s = true ->
  strip (before_first c (strip s)) = strip (before_first c s).
Proof.
  intros Hc H. unfold strip at 2.
  rewrite before_first_rstrip by (now rewrite ?contains_lstrip).
  now rewrite before_first_lstrip, strip_lstrip.
Qed.

Lemma strip_after_first c s :
  is_space c = false -> contains c s = true ->
  strip (after_first c (strip s)) = strip (after_first c s).
Proof.
  intros Hc H. unfold strip at 2.
  rewrite after_first_rstrip by (now rewrite ?contains_lstrip).
  now rewrite after_first_lstrip, strip_rstrip.
Qed.

Lemma strip_nil s : strip s = [] <-> forallb is_space s = true.
Proof.
  unfold strip, rstrip, lstrip. split.
  - intros H. apply drop_while_nil.
    apply (f_equal (@rev N)) in H. rewrite rev_involutive in H. simpl in H.
    apply drop_while_nil in H. rewrite forallb_forall in H.
    destruct (drop_while is_space s) as [|d r] eqn:E; [reflexivity|].
    assert (Hd : is_space d = true) by (apply H, in_rev; rewrite rev_involutive; now left).
    clear H. exfalso. induction s as [|e s IH]; simpl in E; [discriminate|].
    destruct (is_space e) eqn:Ee; [auto | congruence].
  - intros H. apply drop_while_nil in H. now rewrite H.
Qed.

Lemma space_free c s :
  is_space c = false -> forallb is_space s = true -> contains c s = false.
Proof.
  intros Hc H. destruct (contains c s) eqn:E; [|reflexivity].
  apply contains_In in E. rewrite forallb_forall in H. apply H in E. congruence.
Qed.

Lemma count_drop_while p c s :
  p c = false -> count c (drop_while p s) = count c s.
Proof.
  intros Hc. unfold count. induction s as [|d s IH]; simpl; [reflexivity|].
  destruct (p d) eqn:Ed; [|reflexivity].
  rewrite IH. destruct (c =? d) eqn:E; [|reflexivity].
  apply N.eqb_eq in E. congruence.
Qed.

Lemma count_app c s t : count c (s ++ t) = (count c s + count c t)%nat.
Proof. unfold count. now rewrite List.filter_app, List.length_app. Qed.

Lemma count_rev c s : count c (rev s) = count c s.
Proof.
  induction s as [|d s IH]; simpl; [reflexivity|].
  rewrite count_app, IH. unfold count. simpl.
  destruct (c =? d); simpl; lia.
Qed.

Lemma count_strip c s : is_space c = false -> count c (strip s) = count c s.
Proof.
  intros Hc. unfold strip, rstrip, lstrip.
  now rewrite count_rev, count_drop_while, count_rev, count_drop_while.
Qed.

End StringFacts.

(** ** Facts about [splitlines] *)

Section SplitlinesFacts.

Lemma splitlines_from_cons cur c s : splitlines_from cur (c :: s) <> [].
Proof.
  revert cur c. induction s as [|d s IH]; intros cur c; simpl.
  - destruct (is_linebreak c); discriminate.
  - destruct (is_linebreak c); [discriminate|].
    apply (IH (c :: cur) d).
Qed.

Lemma splitlines_nil raw : splitlines raw = [] <-> raw = [].
Proof.
  split; [|intros ->; reflexivity].
  destruct raw as [|c s]; [reflexivity|].
  intros H. now apply splitlines_from_cons in H.
Qed.

(** Every character of a line is a character of the text. *)
Lemma splitlines_from_chars n : forall s cur line c,
  (List.length s <= n)%nat ->
  In line (splitlines_from cur s) -> In c line -> In c cur \/ In c s.
Proof.
  induction n as [|n IH]; intros s cur line c Hn Hl Hc.
  - destruct s; [|simpl in Hn; lia].
    simpl in Hl. destruct cur; [destruct Hl|].
    destruct Hl as [<-|[]]. left. now apply in_rev.
  - destruct s as [|d s]; simpl in Hl.
    + destruct cur; [destruct Hl|].
      destruct Hl as [<-|[]]. left. now apply in_rev.
    + simpl in Hn. destruct (is_linebreak d).
      * destruct Hl as [<-|Hl]; [left; now apply in_rev|].
        right. right.
        destruct s as [|e s'].
        -- destruct Hl.
        -- destruct ((d =? CR) && (e =? LF)).
           ++ destruct (IH s' [] line c ltac:(simpl in Hn; lia) Hl Hc) as [[]|H].
              now right.
           ++ destruct (IH (e :: s') [] line c ltac:(simpl in *; lia) Hl Hc) as [[]|H].
              exact H.
      * destruct (IH s (d :: cur) line c ltac:(lia) Hl Hc) as [[H|H]|H].
        -- right. now left.
        -- now left.
        -- right. now right.
Qed.

Lemma splitlines_chars raw line c :
  In line (splitlines raw) -> In c line -> In c raw.
Proof.
  intros Hl Hc.
  destruct (splitlines_from_chars (List.length raw) raw [] line c (le_n _) Hl Hc)
    as [[]|H]; exact H.
Qed.

End SplitlinesFacts.

(** ** The parse step, line by line *)

Section ParseFacts.

Lemma DOT_not_space : is_space DOT = false.
Proof. reflexivity. Qed.

Lemma COLON_not_space : is_space COLON = false.
Proof. reflexivity. Qed.

(** A blank line has no [.], so it never has the shape. *)
Lemma blank_no_shape line : strip line = [] -> has_shape line = false.
Proof.
  intros H. apply strip_nil in H. unfold has_shape.
  now rewrite (space_free DOT line DOT_not_space H).
Qed.

(** What one iteration does: it appends the record of a line that has
    the shape and leaves the list alone otherwise; it never raises. *)
Lemma outline_step_spec slides line :
  outline_step slides line =
  Ok (if has_shape line then slides ++ [record_of line] else slides).
Proof.
  unfold outline_step.
  destruct (strip line) as [|x xs] eqn:Hs.
  - now rewrite blank_no_shape.
  - unfold has_shape. destruct (contains DOT line) eqn:Hd; simpl; [|reflexivity].
    rewrite (split1_found _ _ Hd). simpl.
    rewrite (contains_strip _ _ COLON_not_space).
    destruct (contains COLON (after_first DOT line)) eqn:Hc; [|reflexivity].
    rewrite split1_found by now rewrite (contains_strip _ _ COLON_not_space).
    simpl. unfold record_of.
    rewrite (strip_before_first _ _ COLON_not_space Hc).
    now rewrite (strip_after_first _ _ COLON_not_space Hc).
Qed.

Lemma for_each_line_spec lines : forall slides,
  for_each_line lines slides =
  Ok (slides ++ map record_of (List.filter has_shape lines)).
Proof.
  induction lines as [|line lines IH]; intros slides; simpl.
  - now rewrite app_nil_r.
  - rewrite outline_step_spec. simpl. rewrite IH.
    destruct (has_shape line); simpl; [|reflexivity].
    now rewrite <- app_assoc.
Qed.

Lemma parse_body_spec raw :
  parse_body raw =
  Ok (match map record_of (List.filter has_shape (splitlines raw)) with
      | [] => [fallback raw]
      | slides => slides
      end).
Proof.
  unfold parse_body. rewrite for_each_line_spec. simpl.
  now destruct (map record_of (List.filter has_shape (splitlines raw))).
Qed.

Lemma parse_outline_spec raw :
  parse_outline raw =
  match map record_of (List.filter has_shape (splitlines raw)) with
  | [] => [fallback raw]
  | slides => slides
  end.
Proof. unfold parse_outline. now rewrite parse_body_spec. Qed.

Lemma filter_none {A} (f : A -> bool) (l : list A) :
  (forall x, In x l -> f x = false) -> List.filter f l = [].
Proof.
  induction l as [|x l IH]; simpl; intros H; [reflexivity|].
  rewrite (H x) by now left. apply IH. intros y Hy. apply H. now right.
Qed.

Lemma filter_some {A} (f : A -> bool) (l : list A) :
  existsb f l = true -> List.filter f l <> [].
Proof.
  induction l as [|x l IH]; simpl; [discriminate|].
  destruct (f x); simpl; [discriminate | exact IH].
Qed.

End ParseFacts.

(** ** The outline parser: results *)

Example parse_one :
  parse_outline (py "1. Problem: customers lack X; they waste Y")
  = [mk_slide (py "Problem") (py "customers lack X; they waste Y")].
Proof. vm_compute. reflexivity. Qed.

Example parse_ten :
  let line n t := (py n ++ py ". " ++ py t ++ py ": a; b")%list in
  let raw :=
    (line "1" "Overview" ++ [LF] ++ line "2" "Problem" ++ [LF]
     ++ line "3" "Solution" ++ [LF] ++ line "4" "Market" ++ [LF]
     ++ line "5" "Product" ++ [LF] ++ line "6" "Strategy" ++ [LF]
     ++ line "7" "Competition" ++ [LF] ++ line "8" "Team" ++ [LF]
     ++ line "9" "Financials" ++ [LF] ++ line "10" "Ask")%list in
  map (fun d => d !! "title") (parse_outline raw)
  = map (fun t => Some (py t))
      ["Overview"; "Problem"; "Solution"; "Market"; "Product"; "Strategy";
       "Competition"; "Team"; "Financials"; "Ask"].
Proof. vm_compute. reflexivity. Qed.

(** C1: for every completion text [raw] the parse step raises nothing (the
    body of the [try] returns, so the handler is never entered) and its
    result is never the empty list; when no line of [raw] has the shape,
    the result is the single fallback record, whose content is [raw]
    itself. *)
Theorem parse_outline_never_empty (raw : list N) :
  (exists slides, parse_body raw = Ok slides /\ parse_outline raw = slides)
  /\ parse_outline raw <> []
  /\ (existsb has_shape (splitlines raw) = true
      \/ parse_outline raw = [fallback raw])
  /\ fallback raw !! "content" = Some raw.
Proof.
  repeat split.
  - eexists. split; [apply parse_body_spec | apply parse_outline_spec].
  - rewrite parse_outline_spec.
    now destruct (map record_of (List.filter has_shape (splitlines raw))).
  - destruct (existsb has_shape (splitlines raw)) eqn:E; [now left | right].
    rewrite parse_outline_spec, filter_none; [reflexivity|].
    intros line Hl. destruct (has_shape line) eqn:Hs; [|reflexivity].
    assert (existsb has_shape (splitlines raw) = true); [|congruence].
    apply existsb_exists. eauto.
Qed.

(** C2: when [raw] is empty, or only white space, or none of its lines has
    a [.] followed, after the first one, by a [:], the parse step returns
    exactly one record, with title "Pitch Deck" and content [raw]. *)
Theorem parse_outline_fallback (raw : list N) :
  raw = [] \/ forallb is_space raw = true
  \/ (forall line, In line (splitlines raw) -> has_shape line = false) ->
  parse_outline raw = [fallback raw]
  /\ fallback raw !! "title" = Some (py "Pitch Deck")
  /\ fallback raw !! "content" = Some raw.
Proof.
  intros H. split; [|split; reflexivity].
  rewrite parse_outline_spec, filter_none; [reflexivity|].
  destruct H as [-> | [H | H]]; [intros line [] | | exact H].
  intros line Hl. unfold has_shape.
  destruct (contains DOT line) eqn:Hd; [|reflexivity].
  apply contains_In in Hd. apply (splitlines_chars raw line DOT Hl) in Hd.
  apply contains_In in Hd.
  now rewrite (space_free DOT raw DOT_not_space H) in Hd.
Qed.

Lemma parse_outline_fallback_witness :
  let raw := (py "Slide one stuff" ++ [LF] ++ py "more stuff")%list in
  parse_outline raw = [fallback raw]
  /\ fallback raw !! "title" = Some (py "Pitch Deck")
  /\ fallback raw !! "content" = Some raw.
Proof.
  apply (parse_outline_fallback (py "Slide one stuff" ++ [LF] ++ py "more stuff")).
  right. right. intros line Hl. vm_compute in Hl.
  destruct Hl as [<- | [<- | []]]; reflexivity.
Defined.

Example parse_blank :
  parse_outline [SPACE; LF; 9; SPACE] = [fallback [SPACE; LF; 9; SPACE]].
Proof. vm_compute. reflexivity. Qed.

(** *** Well-formed outlines *)

Lemma after_first_skip c (s t : list N) :
  contains c s = false -> after_first c (s ++ t) = after_first c t.
Proof.
  induction s as [|d s IH]; simpl; intros H; [reflexivity|].
  apply orb_false_iff in H as [H1 H2]. rewrite H1. auto.
Qed.

Lemma digits_no_colon (n : list N) :
  forallb is_digit n = true -> contains COLON n = false.
Proof.
  intros H. destruct (contains COLON n) eqn:E; [|reflexivity].
  apply contains_In in E. rewrite forallb_forall in H. apply H in E.
  discriminate.
Qed.

(** In a well-formed line the first [:] of the line is the first [:] after
    the first [.]. *)
Lemma well_formed_colon line :
  well_formed line = true ->
  has_shape line = true
  /\ after_first COLON line = after_first COLON (after_first DOT line).
Proof.
  unfold well_formed.
  destruct (before_first DOT line) as [|d n] eqn:E; [discriminate|].
  intros H. apply andb_true_iff in H as [Hn Hs]. split; [exact Hs|].
  unfold has_shape in Hs. apply andb_true_iff in Hs as [Hd _].
  rewrite (first_cut DOT line Hd) at 1. rewrite E.
  rewrite after_first_skip by now apply digits_no_colon.
  reflexivity.
Qed.

Lemma well_formed_records (lines : list (list N)) :
  forallb well_formed lines = true ->
  map record_of (List.filter has_shape lines) = map built_record lines.
Proof.
  induction lines as [|line lines IH]; simpl; [reflexivity|].
  intros H. apply andb_true_iff in H as [Hl H].
  destruct (well_formed_colon line Hl) as [Hs Hc].
  rewrite Hs. simpl. rewrite IH by assumption. f_equal.
  unfold record_of, built_record. now rewrite Hc.
Qed.

(** C3, as amended: for every non-empty text whose lines are all
    well-formed, the parse step returns one record per line, in the order
    of the lines; the title is the trimmed text between the first [.] and
    the first [:] of the line, and the content is the trimmed text after
    that [:] without its leading run of [-] and space characters. *)
Theorem well_formed_outline (raw : list N) :
  raw <> [] ->
  forallb well_formed (splitlines raw) = true ->
  parse_outline raw = map built_record (splitlines raw).
Proof.
  intros Hne Hwf. rewrite parse_outline_spec, well_formed_records by assumption.
  destruct (splitlines raw) eqn:E; [|reflexivity].
  now apply splitlines_nil in E.
Qed.

Lemma well_formed_outline_witness :
  let raw := (py "1. Problem: customers lack X; they waste Y" ++ [LF]
              ++ py "2. Solution: - one app; - one price")%list in
  raw <> []
  /\ forallb well_formed (splitlines raw) = true
  /\ parse_outline raw = map built_record (splitlines raw).
Proof.
  intros raw.
  assert (Hne : raw <> []) by discriminate.
  assert (Hwf : forallb well_formed (splitlines raw) = true) by reflexivity.
  exact (conj Hne (conj Hwf (well_formed_outline raw Hne Hwf))).
Defined.

Example parse_two :
  parse_outline (py "1. Problem: customers lack X; they waste Y" ++ [LF]
                 ++ py "2. Solution: - one app; - one price")
  = [ mk_slide (py "Problem") (py "customers lack X; they waste Y");
      mk_slide (py "Solution") (py "one app; - one price") ].
Proof. vm_compute. reflexivity. Qed.

(** C3, as stated, fails: on a well-formed line whose first bullet starts
    with a dash the content is not the trimmed text after the colon. *)
Lemma well_formed_outline_counterexample :
  let raw := py "1. Growth: -5% churn; +10% signups" in
  raw <> []
  /\ forallb well_formed (splitlines raw) = true
  /\ parse_outline raw <> map announced_record (splitlines raw)
  /\ map (fun d => d !! "content") (parse_outline raw)
     = [Some (py "5% churn; +10% signups")]
  /\ map (fun d => d !! "content") (map announced_record (splitlines raw))
     = [Some (py "-5% churn; +10% signups")].
Proof.
  intros raw. split; [discriminate|]. split; [reflexivity|].
  split; [|split; reflexivity].
  intros H.
  apply (f_equal (map (fun d : gmap string (list N) => d !! "content"))) in H.
  vm_compute in H. discriminate.
Qed.

(** *** Lines that do not match *)

(** C4: a non-blank line with no [.], or with no [:] after its first [.],
    adds no record: when some other line has the shape, the result is the
    list of the records of the lines that have it, in order, and is the
    same as without the line. *)
Theorem unmatched_line_skipped (raw : list N) (before : list (list N))
    (line : list N) (after : list (list N)) :
  splitlines raw = before ++ line :: after ->
  strip line <> [] ->
  contains DOT line = false \/ contains COLON (after_first DOT line) = false ->
  existsb has_shape (before ++ after) = true ->
  (forall slides, outline_step slides line = Ok slides)
  /\ parse_outline raw = map record_of (List.filter has_shape (splitlines raw))
  /\ parse_outline raw = map record_of (List.filter has_shape (before ++ after)).
Proof.
  intros Hsplit _ Hbad Hsome.
  assert (Hs : has_shape line = false).
  { unfold has_shape. destruct Hbad as [-> | ->]; [reflexivity | apply andb_false_r]. }
  assert (Hf : List.filter has_shape (splitlines raw)
               = List.filter has_shape (before ++ after)).
  { rewrite Hsplit, !List.filter_app. simpl. now rewrite Hs. }
  split; [|split].
  - intros slides. now rewrite outline_step_spec, Hs.
  - rewrite parse_outline_spec.
    destruct (List.filter has_shape (splitlines raw)) eqn:E; [|reflexivity].
    rewrite Hf in E. apply filter_some in Hsome. congruence.
  - rewrite parse_outline_spec, Hf.
    destruct (List.filter has_shape (before ++ after)) eqn:E; [|reflexivity].
    apply filter_some in Hsome. congruence.
Qed.

Lemma unmatched_line_skipped_witness :
  let raw := (py "1. Problem: slow" ++ [LF] ++ py "Here is the rest"
              ++ [LF] ++ py "2. Team: two founders")%list in
  (forall slides, outline_step slides (py "Here is the rest") = Ok slides)
  /\ parse_outline raw = map record_of (List.filter has_shape (splitlines raw))
  /\ parse_outline raw
     = map record_of (List.filter has_shape
         ([py "1. Problem: slow"] ++ [py "2. Team: two founders"])).
Proof.
  apply (unmatched_line_skipped
           (py "1. Problem: slow" ++ [LF] ++ py "Here is the rest"
            ++ [LF] ++ py "2. Team: two founders")
           [py "1. Problem: slow"] (py "Here is the rest")
           [py "2. Team: two founders"]).
  - reflexivity.
  - discriminate.
  - left. reflexivity.
  - reflexivity.
Defined.

(** *** Which [.] and which [:] are the separators *)

(** C5: in a parsed line only the first [:] after the first [.] separates
    title from content.  With [n] the text up to the first [.], [t] the
    text from there to the first [:] and [c] everything after that [:],
    the record has the trimmed [t] as title and keeps every [:] of [c] in
    its content. *)
Theorem first_colon_separates (slides : list (gmap string (list N)))
    (n t c : list N) :
  contains DOT n = false ->
  contains COLON t = false ->
  let content := lstrip_chars (py "- ") (strip c) in
  outline_step slides (n ++ DOT :: t ++ COLON :: c)
  = Ok (slides ++ [mk_slide (strip t) content])
  /\ count COLON content = count COLON c
  /\ count COLON (strip t) = O.
Proof.
  intros Hn Ht content.
  assert (Hs : has_shape (n ++ DOT :: t ++ COLON :: c) = true).
  { unfold has_shape. rewrite (after_first_app DOT n _ Hn).
    rewrite !contains_app. cbn [contains]. rewrite !N.eqb_refl.
    now rewrite !orb_true_r. }
  split; [|split].
  - rewrite outline_step_spec, Hs. unfold record_of.
    rewrite (after_first_app DOT n _ Hn).
    now rewrite (before_first_app COLON t c Ht), (after_first_app COLON t c Ht).
  - unfold content, lstrip_chars.
    rewrite count_drop_while by reflexivity. now apply count_strip.
  - rewrite count_strip by reflexivity.
    unfold count. rewrite filter_none; [reflexivity|].
    intros x Hx. destruct (COLON =? x) eqn:E; [|reflexivity].
    apply N.eqb_eq in E. subst x. apply contains_In in Hx. congruence.
Qed.

Lemma first_colon_separates_witness :
  outline_step [] (py "8" ++ DOT :: py " Team" ++ COLON :: py " CEO: Ann; CTO: Bob")
  = Ok ([] ++ [mk_slide (strip (py " Team"))
                 (lstrip_chars (py "- ") (strip (py " CEO: Ann; CTO: Bob")))])
  /\ count COLON (lstrip_chars (py "- ") (strip (py " CEO: Ann; CTO: Bob")))
     = count COLON (py " CEO: Ann; CTO: Bob")
  /\ count COLON (strip (py " Team")) = O.
Proof.
  apply (first_colon_separates [] (py "8") (py " Team") (py " CEO: Ann; CTO: Bob"));
    reflexivity.
Defined.

Example parse_colons :
  parse_outline (py "8. Team: CEO: Ann; CTO: Bob")
  = [mk_slide (py "Team") (py "CEO: Ann; CTO: Bob")].
Proof. vm_compute. reflexivity. Qed.

(** C6: in a parsed line only the first [.] is taken as the end of the
    ordinal.  With [n] the text up to the first [.] and [rest] everything
    after it, the record is cut out of [rest] alone, and every later [.]
    that stands before the [:] stays in the title. *)
Theorem first_dot_is_ordinal (slides : list (gmap string (list N)))
    (n rest : list N) :
  contains DOT n = false ->
  contains COLON rest = true ->
  let title := strip (before_first COLON rest) in
  outline_step slides (n ++ DOT :: rest)
  = Ok (slides ++ [mk_slide title
                     (lstrip_chars (py "- ") (strip (after_first COLON rest)))])
  /\ count DOT title = count DOT (before_first COLON rest).
Proof.
  intros Hn Hr title. split.
  - rewrite outline_step_spec. unfold has_shape, record_of.
    rewrite (after_first_app DOT n _ Hn), Hr, contains_app. cbn [contains].
    now rewrite N.eqb_refl, orb_true_r.
  - apply count_strip. reflexivity.
Qed.

Lemma first_dot_is_ordinal_witness :
  outline_step [] (py "10" ++ DOT :: py "5. Title: body")
  = Ok ([] ++ [mk_slide (strip (before_first COLON (py "5. Title: body")))
                 (lstrip_chars (py "- ")
                    (strip (after_first COLON (py "5. Title: body"))))])
  /\ count DOT (strip (before_first COLON (py "5. Title: body")))
     = count DOT (before_first COLON (py "5. Title: body")).
Proof.
  apply (first_dot_is_ordinal [] (py "10") (py "5. Title: body")); reflexivity.
Defined.

Example parse_dots :
  parse_outline (py "10.5. Title: body") = [mk_slide (py "5. Title") (py "body")].
Proof. vm_compute. reflexivity. Qed.

(** *** The title of a parsed line *)

(** C8, as stated, fails: a line with nothing but white space between its
    first [.] and the [:] is parsed into a record, and the title of that
    record is the empty string. *)
Lemma empty_title_counterexample :
  has_shape (py "1. : market") = true
  /\ outline_step [] (py "1. : market") = Ok [mk_slide [] (py "market")]
  /\ parse_outline (py "1. : market") = [mk_slide [] (py "market")]
  /\ mk_slide [] (py "market") !! "title" = Some [].
Proof. repeat split; vm_compute; reflexivity. Qed.

(** C8, as amended: a line that is turned into a record gets as title the
    trimmed text between its first [.] and the first [:] after it; the
    title is non-empty exactly when that text has a character that is not
    white space. *)
Theorem parsed_title (slides : list (gmap string (list N))) (line : list N) :
  has_shape line = true ->
  let title := strip (before_first COLON (after_first DOT line)) in
  (exists content,
      outline_step slides line = Ok (slides ++ [mk_slide title content])
      /\ mk_slide title content !! "title" = Some title)
  /\ (title <> [] <->
      forallb is_space (before_first COLON (after_first DOT line)) = false).
Proof.
  intros Hs title. split.
  - eexists. split.
    + rewrite outline_step_spec, Hs. reflexivity.
    + reflexivity.
  - unfold title. rewrite strip_nil.
    destruct (forallb is_space (before_first COLON (after_first DOT line)));
      intuition congruence.
Qed.

Lemma parsed_title_witness :
  has_shape (py "2. Problem: slow") = true
  /\ (exists content,
         outline_step [] (py "2. Problem: slow")
         = Ok ([] ++ [mk_slide (strip (before_first COLON
                                  (after_first DOT (py "2. Problem: slow")))) content])
         /\ mk_slide (strip (before_first COLON
                        (after_first DOT (py "2. Problem: slow")))) content
            !! "title"
            = Some (strip (before_first COLON
                      (after_first DOT (py "2. Problem: slow")))))
  /\ (strip (before_first COLON (after_first DOT (py "2. Problem: slow"))) <> []
      <-> forallb is_space
            (before_first COLON (after_first DOT (py "2. Problem: slow"))) = false).
Proof.
  split; [reflexivity|].
  apply (parsed_title [] (py "2. Problem: slow")). reflexivity.
Defined.

(** ** The completion client: results *)

Section ServiceFacts.

Variable completion : Type.
Variable create : world -> request -> outcome completion.
Variable reply : completion -> outcome (list N).

(** Without the package or without a key, [_ensure_openai] raises and
    leaves everything as it was. *)
Lemma ensure_openai_unconfigured api_key w :
  openai w = None
  \/ (truthy api_key = false /\ truthy (environ w !! "OPENAI_API_KEY") = false) ->
  exists msg, _ensure_openai api_key w = (Raise (RuntimeError msg), w).
Proof.
  intros H. unfold _ensure_openai.
  destruct (openai w) as [k|] eqn:E; [|eauto].
  destruct H as [H | [Ha He]]; [discriminate|].
  unfold py_or. rewrite Ha, He. simpl. eauto.
Qed.

(** The slides of a run that got a completion are never the empty list. *)
Lemma outline_slides_nonempty idea api_key w slides w' :
  generate_pitch_deck_outline completion create reply idea api_key w
  = (Ok slides, w') -> slides <> [].
Proof.
  unfold generate_pitch_deck_outline.
  destruct (_chat_completion _ _ _ _ _ _ _) as [[raw|e] w1]; [|discriminate].
  intros [= <- _]. rewrite parse_outline_spec.
  now destruct (map record_of (List.filter has_shape (splitlines raw))).
Qed.

End ServiceFacts.

(** C9: when the package is not there, or no key comes from the argument
    or from the environment (absent or empty), [_chat_completion] raises a
    [RuntimeError] for every prompt, and no request has gone to the
    service: the world, its list of requests included, is as before. *)
Theorem chat_completion_unconfigured (completion : Type)
    (create : world -> request -> outcome completion)
    (reply : completion -> outcome (list N))
    (prompt : list N) (api_key : option (list N)) (model : list N) (w : world) :
  openai w = None
  \/ (truthy api_key = false /\ truthy (environ w !! "OPENAI_API_KEY") = false) ->
  exists msg,
    _chat_completion completion create reply prompt api_key model w
    = (Raise (RuntimeError msg), w)
    /\ sent (snd (_chat_completion completion create reply prompt api_key model w))
       = sent w.
Proof.
  intros H. destruct (ensure_openai_unconfigured api_key w H) as [msg Hm].
  exists msg. unfold _chat_completion. rewrite Hm. split; reflexivity.
Qed.

Lemma chat_completion_unconfigured_witness :
  let w := {| openai := Some None; environ := ∅; sent := [] |} in
  exists msg,
    _chat_completion unit (fun _ _ => Returns tt) (fun _ => Returns (py "1. A: b"))
      (py "hello") None DEFAULT_MODEL w
    = (Raise (RuntimeError msg), w)
    /\ sent (snd (_chat_completion unit (fun _ _ => Returns tt)
                    (fun _ => Returns (py "1. A: b")) (py "hello") None DEFAULT_MODEL w))
       = sent w.
Proof.
  intros w.
  apply (chat_completion_unconfigured unit (fun _ _ => Returns tt)
           (fun _ => Returns (py "1. A: b")) (py "hello") None DEFAULT_MODEL w).
  right. split; reflexivity.
Defined.

Example chat_completion_no_package :
  fst (_chat_completion unit (fun _ _ => Returns tt) (fun _ => Returns (py "1. A: b"))
         (py "hello") (Some (py "sk-1")) DEFAULT_MODEL
         {| openai := None; environ := ∅; sent := [] |})
  = Raise (RuntimeError (py
      "The openai package is not installed. Install it with `pip install openai`.")).
Proof. reflexivity. Qed.

Example chat_completion_configured :
  let w := {| openai := Some None; environ := {[ "OPENAI_API_KEY" := py "sk-1" ]};
              sent := [] |} in
  let out := _chat_completion unit (fun _ _ => Returns tt) (fun _ => Returns (py " 1. A: b "))
               (py "hello") None DEFAULT_MODEL w in
  fst out = Ok (py "1. A: b")
  /\ List.length (sent (snd out)) = 1%nat
  /\ openai (snd out) = Some (Some (py "sk-1")).
Proof. repeat split. Qed.

(** ** More facts about the string operations *)

Section TrimFacts.

Implicit Types (c d : N) (s t : list N) (p : N -> bool).

Lemma drop_while_head p s d r : drop_while p s = d :: r -> p d = false.
Proof.
  induction s as [|e s IH]; simpl; [discriminate|].
  destruct (p e) eqn:E; [exact IH | congruence].
Qed.

Lemma drop_while_cut p s :
  exists l, s = l ++ drop_while p s /\ forallb p l = true.
Proof.
  induction s as [|e s [l [Hl Hp]]]; simpl; [now exists []|].
  destruct (p e) eqn:E.
  - exists (e :: l). simpl. rewrite E, <- Hl. now split.
  - now exists [].
Qed.

Lemma strip_idem s : strip (strip s) = strip s.
Proof. unfold strip at 2. now rewrite strip_rstrip, strip_lstrip. Qed.

Lemma strip_first s d r : strip s = d :: r -> is_space d = false.
Proof.
  unfold strip. rewrite <- lstrip_rstrip. apply drop_while_head.
Qed.

Lemma strip_last s r d : strip s = r ++ [d] -> is_space d = false.
Proof.
  unfold strip, rstrip. intros H.
  apply (f_equal (@rev N)) in H.
  rewrite rev_involutive, rev_app_distr in H. simpl in H.
  now apply drop_while_head in H.
Qed.

Lemma forallb_rev p s : forallb p (rev s) = forallb p s.
Proof.
  induction s as [|e s IH]; simpl; [reflexivity|].
  rewrite forallb_app, IH. simpl. rewrite andb_true_r. apply andb_comm.
Qed.

(** [strip] cuts white space, and nothing else, off the two ends. *)
Lemma strip_cut s :
  exists l r, s = l ++ strip s ++ r
              /\ forallb is_space l = true /\ forallb is_space r = true.
Proof.
  destruct (drop_while_cut is_space s) as [l [Hl Hp]].
  destruct (drop_while_cut is_space (rev (lstrip s))) as [r [Hr Hq]].
  exists l, (rev r). unfold strip, rstrip. repeat split.
  - rewrite <- rev_app_distr, <- Hr, rev_involutive. exact Hl.
  - exact Hp.
  - now rewrite forallb_rev.
Qed.

Lemma In_strip c s : In c (strip s) -> In c s.
Proof.
  intros H. destruct (strip_cut s) as (l & r & Hs & _).
  rewrite Hs. apply in_or_app. right. apply in_or_app. now left.
Qed.

Lemma contains_false_strip c s : contains c s = false -> contains c (strip s) = false.
Proof.
  intros H. destruct (contains c (strip s)) eqn:E; [|reflexivity].
  apply contains_In, In_strip, contains_In in E. congruence.
Qed.

End TrimFacts.

(** ** The completion client: more results *)

Section ClientFacts.

Variable completion : Type.
Variable create : world -> request -> outcome completion.
Variable reply : completion -> outcome (list N).

Lemma ensure_openai_Ok api_key w :
  configured api_key w = true ->
  _ensure_openai api_key w
  = (Ok tt, set_api_key (py_or api_key (environ w !! "OPENAI_API_KEY")) w)
  /\ truthy (py_or api_key (environ w !! "OPENAI_API_KEY")) = true.
Proof.
  unfold configured, _ensure_openai.
  destruct (openai w); [|discriminate]. intros H.
  assert (Hk : truthy (py_or api_key (environ w !! "OPENAI_API_KEY")) = true).
  { unfold py_or. destruct (truthy api_key) eqn:E; [exact E | exact H]. }
  now rewrite Hk.
Qed.

Lemma ensure_openai_not_Ok api_key w :
  configured api_key w = false ->
  exists msg, _ensure_openai api_key w = (Raise (RuntimeError msg), w).
Proof.
  intros H. apply ensure_openai_unconfigured. unfold configured in H.
  destruct (openai w); [right | now left].
  now apply orb_false_iff in H.
Qed.

(** The outcomes of a configured call: a wrapped exception, one that
    [except Exception] lets through, or the trimmed text. *)
Lemma chat_completion_cases prompt api_key model w :
  configured api_key w = true ->
  let w1 := send (chat_request prompt model)
              (set_api_key (py_or api_key (environ w !! "OPENAI_API_KEY")) w) in
  (exists msg,
      _chat_completion completion create reply prompt api_key model w
      = (Raise (RuntimeError msg), w1))
  \/ (exists name,
         _chat_completion completion create reply prompt api_key model w
         = (Raise (BaseError name), w1)
         /\ ((exists w0 r, create w0 r = Escapes name)
             \/ (exists c, reply c = Escapes name)))
  \/ (exists text,
         _chat_completion completion create reply prompt api_key model w
         = (Ok (strip text), w1)).
Proof.
  intros H w1. unfold _chat_completion.
  destruct (ensure_openai_Ok api_key w H) as [-> _].
  fold (chat_request prompt model).
  destruct (create _ _) as [c|exc|name] eqn:Ec.
  - destruct (reply c) as [text|exc|name] eqn:Er.
    + right. right. eauto.
    + left. eauto.
    + right. left. exists name. split; [reflexivity|]. right. eauto.
  - left. eauto.
  - right. left. exists name. split; [reflexivity|]. left. eauto.
Qed.

Lemma configured_after api_key w key r :
  configured api_key w = true ->
  configured api_key (send r (set_api_key key w)) = true.
Proof.
  unfold configured. simpl. now destruct (openai w).
Qed.

End ClientFacts.

(** X1: with the package there and a non-empty key in the argument or in
    the environment, [_ensure_openai] returns and stores the key in
    [openai.api_key]: the argument's when it is not empty, the
    environment's otherwise; the environment and the requests sent are
    untouched. *)
Theorem ensure_openai_sets_key (api_key : option (list N)) (w : world) :
  configured api_key w = true ->
  exists key,
    _ensure_openai api_key w = (Ok tt, set_api_key (Some key) w)
    /\ key <> []
    /\ (truthy api_key = true -> api_key = Some key)
    /\ (truthy api_key = false -> environ w !! "OPENAI_API_KEY" = Some key).
Proof.
  intros H. destruct (ensure_openai_Ok api_key w H) as [He Hk].
  destruct (py_or api_key (environ w !! "OPENAI_API_KEY")) as [[|d key]|] eqn:E;
    try discriminate.
  exists (d :: key). split; [exact He|]. split; [discriminate|].
  unfold py_or in E. split; intros Ht; rewrite Ht in E; exact E.
Qed.

Lemma ensure_openai_sets_key_witness :
  let w := {| openai := Some None; environ := {[ "OPENAI_API_KEY" := py "sk-env" ]};
              sent := [] |} in
  exists key,
    _ensure_openai (Some []) w = (Ok tt, set_api_key (Some key) w)
    /\ key <> []
    /\ (truthy (Some []) = true -> Some [] = Some key)
    /\ (truthy (Some []) = false -> environ w !! "OPENAI_API_KEY" = Some key).
Proof.
  intros w. apply (ensure_openai_sets_key (Some []) w). reflexivity.
Defined.

(** X2: a configured [_chat_completion] sends exactly one request, whether
    the service answers, raises or answers in an unexpected format: the
    given model, the system persona and the prompt as the two messages,
    temperature 0.7. *)
Theorem chat_completion_one_request (completion : Type)
    (create : world -> request -> outcome completion)
    (reply : completion -> outcome (list N))
    (prompt : list N) (api_key : option (list N)) (model : list N) (w : world) :
  configured api_key w = true ->
  let w' := snd (_chat_completion completion create reply prompt api_key model w) in
  sent w' = chat_request prompt model :: sent w
  /\ environ w' = environ w
  /\ user_prompt (chat_request prompt model) = prompt.
Proof.
  intros H w'. subst w'.
  destruct (chat_completion_cases completion create reply prompt api_key model w H)
    as [[msg ->] | [(name & -> & _) | [text ->]]]; repeat split.
Qed.

Lemma chat_completion_one_request_witness :
  let w := {| openai := Some None; environ := ∅; sent := [] |} in
  let w' := snd (_chat_completion unit (fun _ _ => Throws (py "timeout"))
                   (fun _ => Returns []) (py "hello") (Some (py "sk-1")) DEFAULT_MODEL w) in
  sent w' = chat_request (py "hello") DEFAULT_MODEL :: sent w
  /\ environ w' = environ w
  /\ user_prompt (chat_request (py "hello") DEFAULT_MODEL) = py "hello".
Proof.
  intros w.
  apply (chat_completion_one_request unit (fun _ _ => Throws (py "timeout"))
           (fun _ => Returns []) (py "hello") (Some (py "sk-1")) DEFAULT_MODEL w).
  reflexivity.
Defined.

(** X3: an exception of class [Exception] raised inside
    [_chat_completion] (no package, no key, a failing call, an unexpected
    answer) leaves it as a [RuntimeError].  The only other exceptions that
    leave it are those outside [Exception] that the call to the service or
    the lookup in its answer raised: they pass unchanged. *)
Theorem chat_completion_wraps_exceptions (completion : Type)
    (create : world -> request -> outcome completion)
    (reply : completion -> outcome (list N))
    (prompt : list N) (api_key : option (list N)) (model : list N) (w : world)
    (e : exn) :
  fst (_chat_completion completion create reply prompt api_key model w) = Raise e ->
  (exists msg, e = RuntimeError msg)
  \/ (exists name,
         e = BaseError name
         /\ ((exists w0 r, create w0 r = Escapes name)
             \/ (exists c, reply c = Escapes name))).
Proof.
  destruct (configured api_key w) eqn:H.
  - destruct (chat_completion_cases completion create reply prompt api_key model w H)
      as [[msg ->] | [(name & -> & Hn) | [text ->]]]; simpl; intros [= <-]; eauto.
  - destruct (ensure_openai_not_Ok api_key w H) as [msg Hm].
    unfold _chat_completion. rewrite Hm. simpl. intros [= <-]. eauto.
Qed.

Lemma chat_completion_wraps_exceptions_witness :
  ((exists msg,
       RuntimeError (py "Unexpected response format from OpenAI API: 'choices'")
       = RuntimeError msg)
   \/ (exists name,
          RuntimeError (py "Unexpected response format from OpenAI API: 'choices'")
          = BaseError name
          /\ ((exists (w0 : world) (r : request), @Returns unit tt = Escapes name)
              \/ (exists c : unit, @Throws (list N) (py "'choices'") = Escapes name))))
  /\ ((exists msg, BaseError "KeyboardInterrupt" = RuntimeError msg)
      \/ (exists name,
             BaseError "KeyboardInterrupt" = BaseError name
             /\ ((exists (w0 : world) (r : request),
                     @Escapes unit "KeyboardInterrupt" = Escapes name)
                 \/ (exists c : unit, @Returns (list N) [] = Escapes name)))).
Proof.
  split.
  - apply (chat_completion_wraps_exceptions unit (fun _ _ => Returns tt)
             (fun _ => Throws (py "'choices'")) (py "hello") (Some (py "sk-1"))
             DEFAULT_MODEL {| openai := Some None; environ := ∅; sent := [] |}).
    reflexivity.
  - apply (chat_completion_wraps_exceptions unit
             (fun _ _ => Escapes "KeyboardInterrupt")
             (fun _ => Returns []) (py "hello") (Some (py "sk-1"))
             DEFAULT_MODEL {| openai := Some None; environ := ∅; sent := [] |}).
    reflexivity.
Defined.

(** X4: the text that [_chat_completion] returns is trimmed: it neither
    starts nor ends with a white-space character, and trimming it again
    changes nothing. *)
Theorem chat_completion_text_trimmed (completion : Type)
    (create : world -> request -> outcome completion)
    (reply : completion -> outcome (list N))
    (prompt : list N) (api_key : option (list N)) (model : list N) (w : world)
    (text : list N) :
  fst (_chat_completion completion create reply prompt api_key model w) = Ok text ->
  strip text = text
  /\ (forall d r, text = d :: r -> is_space d = false)
  /\ (forall r d, text = r ++ [d] -> is_space d = false).
Proof.
  intros H.
  assert (Ht : exists raw, text = strip raw).
  { destruct (configured api_key w) eqn:Hc.
    - destruct (chat_completion_cases completion create reply prompt api_key model w Hc)
        as [[msg Hm] | [(name & Hm & _) | [raw Hm]]]; rewrite Hm in H; simpl in H;
        try discriminate.
      injection H as <-. eauto.
    - destruct (ensure_openai_not_Ok api_key w Hc) as [msg Hm].
      unfold _chat_completion in H. rewrite Hm in H. discriminate. }
  destruct Ht as [raw ->]. split; [apply strip_idem|]. split.
  - intros d r. apply strip_first.
  - intros r d. apply strip_last.
Qed.

Lemma chat_completion_text_trimmed_witness :
  strip (py "1. A: b") = py "1. A: b"
  /\ (forall d r, py "1. A: b" = d :: r -> is_space d = false)
  /\ (forall r d, py "1. A: b" = r ++ [d] -> is_space d = false).
Proof.
  apply (chat_completion_text_trimmed unit (fun _ _ => Returns tt)
           (fun _ => Returns ([LF; SPACE] ++ py "1. A: b" ++ [SPACE; LF]))
           (py "hello") (Some (py "sk-1")) DEFAULT_MODEL
           {| openai := Some None; environ := ∅; sent := [] |}).
  reflexivity.
Defined.

(** X5: without the package or without a key, each of the four generators
    raises a [RuntimeError] and leaves the world as it was: no request is
    sent. *)
Theorem generators_unconfigured (completion : Type)
    (create : world -> request -> outcome completion)
    (reply : completion -> outcome (list N))
    (idea : list N) (api_key : option (list N)) (w : world) :
  configured api_key w = false ->
  (exists msg, generate_market_analysis completion create reply idea api_key w
               = (Raise (RuntimeError msg), w))
  /\ (exists msg, generate_pricing_tiers completion create reply idea api_key w
                  = (Raise (RuntimeError msg), w))
  /\ (exists msg, generate_landing_page_copy completion create reply idea api_key w
                  = (Raise (RuntimeError msg), w))
  /\ (exists msg, generate_pitch_deck_outline completion create reply idea api_key w
                  = (Raise (RuntimeError msg), w)).
Proof.
  intros H. destruct (ensure_openai_not_Ok api_key w H) as [msg Hm].
  unfold generate_market_analysis, generate_pricing_tiers,
    generate_landing_page_copy, generate_pitch_deck_outline, _chat_completion.
  rewrite Hm. repeat split; exists msg; reflexivity.
Qed.

Lemma generators_unconfigured_witness :
  let w := {| openai := None; environ := {[ "OPENAI_API_KEY" := py "sk-env" ]};
              sent := [] |} in
  let create := fun (_ : world) (_ : request) => @Returns unit tt in
  let reply := fun _ : unit => @Returns (list N) (py "ok") in
  (exists msg, generate_market_analysis unit create reply (py "tea") None w
               = (Raise (RuntimeError msg), w))
  /\ (exists msg, generate_pricing_tiers unit create reply (py "tea") None w
                  = (Raise (RuntimeError msg), w))
  /\ (exists msg, generate_landing_page_copy unit create reply (py "tea") None w
                  = (Raise (RuntimeError msg), w))
  /\ (exists msg, generate_pitch_deck_outline unit create reply (py "tea") None w
                  = (Raise (RuntimeError msg), w)).
Proof.
  intros w create reply.
  apply (generators_unconfigured unit create reply (py "tea") None w).
  reflexivity.
Defined.

(** ** The outline parser: more results *)

Section OutlineFacts.

Lemma parse_outline_records raw d :
  In d (parse_outline raw) ->
  d = fallback raw \/ exists line, has_shape line = true /\ d = record_of line.
Proof.
  rewrite parse_outline_spec.
  destruct (map record_of (List.filter has_shape (splitlines raw))) as [|r rs] eqn:E.
  - intros [<- | []]. now left.
  - intros H. right. rewrite <- E in H. apply in_map_iff in H as (line & <- & Hl).
    apply filter_In in Hl as [_ Hl]. eauto.
Qed.

Lemma parse_outline_matched raw :
  existsb has_shape (splitlines raw) = true ->
  parse_outline raw = map record_of (List.filter has_shape (splitlines raw)).
Proof.
  intros H. rewrite parse_outline_spec.
  destruct (List.filter has_shape (splitlines raw)) eqn:E; [|reflexivity].
  apply filter_some in H. congruence.
Qed.

Lemma splitlines_from_LF line : forall cur rest,
  forallb (fun c => negb (is_linebreak c)) line = true ->
  splitlines_from cur (line ++ LF :: rest) = (rev cur ++ line) :: splitlines rest.
Proof.
  induction line as [|c line IH]; intros cur rest H; simpl.
  - rewrite app_nil_r. now destruct rest.
  - simpl in H. apply andb_true_iff in H as [Hc H].
    apply negb_true_iff in Hc. rewrite Hc, IH by assumption.
    simpl. now rewrite <- app_assoc.
Qed.

Lemma splitlines_from_CRLF line : forall cur rest,
  forallb (fun c => negb (is_linebreak c)) line = true ->
  splitlines_from cur (line ++ CR :: LF :: rest) = (rev cur ++ line) :: splitlines rest.
Proof.
  induction line as [|c line IH]; intros cur rest H; simpl.
  - now rewrite app_nil_r.
  - simpl in H. apply andb_true_iff in H as [Hc H].
    apply negb_true_iff in Hc. rewrite Hc, IH by assumption.
    simpl. now rewrite <- app_assoc.
Qed.

Lemma splitlines_from_plain line : forall cur,
  forallb (fun c => negb (is_linebreak c)) line = true ->
  splitlines_from cur line
  = match rev cur ++ line with [] => [] | l => [l] end.
Proof.
  induction line as [|c line IH]; intros cur H; simpl.
  - rewrite app_nil_r. destruct cur as [|d cur]; [reflexivity|].
    simpl. now destruct (rev cur).
  - simpl in H. apply andb_true_iff in H as [Hc H].
    apply negb_true_iff in Hc. rewrite Hc, IH by assumption.
    simpl. now rewrite <- app_assoc.
Qed.

Lemma has_shape_nil : has_shape [] = false.
Proof. reflexivity. Qed.

(** The lines of a text put together with LF or with CR LF that have the
    shape are the given lines that have it. *)
Lemma shaped_lines_join sep lines :
  sep = [LF] \/ sep = [CR; LF] ->
  Forall (fun l => forallb (fun c => negb (is_linebreak c)) l = true) lines ->
  List.filter has_shape (splitlines (join sep lines)) = List.filter has_shape lines.
Proof.
  intros Hsep H. induction H as [|l ls Hl Hls IH]; [reflexivity|].
  destruct ls as [|l2 ls].
  - simpl. unfold splitlines. rewrite splitlines_from_plain by assumption.
    simpl. destruct l; reflexivity.
  - change (join sep (l :: l2 :: ls)) with (l ++ sep ++ join sep (l2 :: ls)).
    remember (l2 :: ls) as tl eqn:Etl. clear Etl.
    unfold splitlines at 1.
    destruct Hsep as [-> | ->]; simpl app.
    + rewrite splitlines_from_LF by assumption.
      simpl. now rewrite IH.
    + rewrite splitlines_from_CRLF by assumption.
      simpl. now rewrite IH.
Qed.

End OutlineFacts.

(** X6: every record the parse step returns, parsed or fallback, has
    exactly the two keys ["title"] and ["content"]. *)
Theorem parse_outline_keys (raw : list N) (d : gmap string (list N)) :
  In d (parse_outline raw) ->
  dom d = ({[ "title"; "content" ]} : gset string)
  /\ is_Some (d !! "title") /\ is_Some (d !! "content").
Proof.
  intros H.
  assert (Hd : exists t c, d = mk_slide t c).
  { destruct (parse_outline_records raw d H) as [-> | (line & _ & ->)];
      unfold fallback, record_of; eauto. }
  destruct Hd as (t & c & ->). unfold mk_slide. split; [|split].
  - rewrite dom_insert_L, dom_singleton_L. reflexivity.
  - rewrite lookup_insert_eq. eauto.
  - rewrite lookup_insert_ne by discriminate. rewrite lookup_singleton_eq. eauto.
Qed.

Lemma parse_outline_keys_witness :
  dom (mk_slide [] (py "market")) = ({[ "title"; "content" ]} : gset string)
  /\ is_Some (mk_slide [] (py "market") !! "title")
  /\ is_Some (mk_slide [] (py "market") !! "content").
Proof.
  apply (parse_outline_keys (py "1. : market") (mk_slide [] (py "market"))).
  vm_compute. left. reflexivity.
Defined.

(** X7: when some line has the shape, every record returned comes from a
    line: its title holds no [:] and is trimmed; its content starts with
    neither [-] nor a space and does not end with white space. *)
Theorem parsed_records_clean (raw : list N) (d : gmap string (list N)) :
  existsb has_shape (splitlines raw) = true ->
  In d (parse_outline raw) ->
  exists title body,
    d = mk_slide title body
    /\ contains COLON title = false
    /\ strip title = title
    /\ (forall x r, body = x :: r -> x <> 45 /\ x <> SPACE)
    /\ (forall r x, body = r ++ [x] -> is_space x = false).
Proof.
  intros Hs H. rewrite (parse_outline_matched raw Hs) in H.
  apply in_map_iff in H as (line & <- & _).
  unfold record_of. do 2 eexists. split; [reflexivity|].
  split; [|split; [|split]].
  - apply contains_false_strip, contains_before_first.
  - apply strip_idem.
  - intros x r Hb. unfold lstrip_chars in Hb. apply drop_while_head in Hb.
    change (((45 =? x) || ((SPACE =? x) || false)) = false) in Hb.
    apply orb_false_iff in Hb as [H1 H2].
    apply orb_false_iff in H2 as [H2 _].
    apply N.eqb_neq in H1, H2. split; congruence.
  - intros r x Hb. unfold lstrip_chars in Hb.
    destruct (drop_while_cut (fun c => contains c (py "- "))
                (strip (after_first COLON (after_first DOT line)))) as (l & Hl & _).
    rewrite Hb, app_assoc in Hl. now apply strip_last in Hl.
Qed.

Lemma parsed_records_clean_witness :
  exists title body,
    mk_slide (py "Plan") (py "ship - then sell") = mk_slide title body
    /\ contains COLON title = false
    /\ strip title = title
    /\ (forall x r, body = x :: r -> x <> 45 /\ x <> SPACE)
    /\ (forall r x, body = r ++ [x] -> is_space x = false).
Proof.
  apply (parsed_records_clean (py "3.  Plan : - - ship - then sell  ")
           (mk_slide (py "Plan") (py "ship - then sell"))).
  - reflexivity.
  - vm_compute. left. reflexivity.
Defined.

(** X8: the parse step returns at least one record and never more records
    than the text has lines (one, for a text without lines). *)
Theorem parse_outline_length (raw : list N) :
  (1 <= List.length (parse_outline raw))%nat
  /\ (List.length (parse_outline raw) <= Nat.max 1 (List.length (splitlines raw)))%nat.
Proof.
  rewrite parse_outline_spec.
  pose proof (List.filter_length_le has_shape (splitlines raw)) as H.
  rewrite <- (List.length_map record_of) in H.
  destruct (map record_of (List.filter has_shape (splitlines raw))); simpl in *; lia.
Qed.

(** X9: parsing goes line by line.  With a first line free of line
    boundaries and a rest in which some line has the shape, the records of
    [line], LF, [rest] are the record of [line], when it has the shape,
    followed by the records of [rest]. *)
Theorem parse_outline_first_line (line rest : list N) :
  forallb (fun c => negb (is_linebreak c)) line = true ->
  existsb has_shape (splitlines rest) = true ->
  parse_outline (line ++ LF :: rest)
  = (if has_shape line then [record_of line] else []) ++ parse_outline rest.
Proof.
  intros Hl Hr.
  assert (Hs : splitlines (line ++ LF :: rest) = line :: splitlines rest)
    by apply (splitlines_from_LF line [] rest Hl).
  rewrite (parse_outline_matched rest Hr).
  rewrite parse_outline_matched; rewrite Hs.
  - simpl. now destruct (has_shape line).
  - simpl. rewrite Hr. apply orb_true_r.
Qed.

Lemma parse_outline_first_line_witness :
  parse_outline (py "Here is your deck" ++ LF :: py "1. Problem: slow")
  = (if has_shape (py "Here is your deck")
     then [record_of (py "Here is your deck")] else [])
    ++ parse_outline (py "1. Problem: slow").
Proof.
  apply (parse_outline_first_line (py "Here is your deck") (py "1. Problem: slow"));
    reflexivity.
Defined.

(** X10: line endings do not matter.  For lines free of line boundaries,
    one of which has the shape, the text made of them with LF between and
    the text made with CR LF between both parse to the records of the lines
    that have the shape, in order. *)
Theorem parse_outline_line_endings (lines : list (list N)) :
  Forall (fun l => forallb (fun c => negb (is_linebreak c)) l = true) lines ->
  existsb has_shape lines = true ->
  parse_outline (join [LF] lines) = map record_of (List.filter has_shape lines)
  /\ parse_outline (join [CR; LF] lines) = map record_of (List.filter has_shape lines).
Proof.
  intros Hl Hs.
  assert (H : forall sep, sep = [LF] \/ sep = [CR; LF] ->
            parse_outline (join sep lines) = map record_of (List.filter has_shape lines)).
  { intros sep Hsep. rewrite parse_outline_spec, (shaped_lines_join sep lines Hsep Hl).
    destruct (List.filter has_shape lines) eqn:E; [|reflexivity].
    apply filter_some in Hs. congruence. }
  split; apply H; auto.
Qed.

Lemma parse_outline_line_endings_witness :
  let lines := [py "1. Problem: slow"; []; py "2. Team: two"; []] in
  parse_outline (join [LF] lines) = map record_of (List.filter has_shape lines)
  /\ parse_outline (join [CR; LF] lines) = map record_of (List.filter has_shape lines).
Proof.
  intros lines. apply (parse_outline_line_endings lines).
  - repeat constructor.
  - reflexivity.
Defined.

(** ** The deck assembler: results *)

(** C7: with no slide, [create_pitch_deck] raises [ValueError] and writes
    no file. *)
Theorem create_pitch_deck_empty (xml_char_ok : N -> bool)
    (save_error : list N -> presentation -> list (list N * presentation) -> option exn)
    (template : list (list shape))
    (output_path : list N) (fs : list (list N * presentation)) :
  create_pitch_deck xml_char_ok save_error template [] output_path fs
  = (Raise (ValueError "No slides provided to create_pitch_deck()."), fs).
Proof. reflexivity. Qed.

Section BulletFacts.

Lemma split_piece_free c s piece : In piece (split c s) -> contains c piece = false.
Proof.
  revert piece. induction s as [|d s IH]; simpl; intros piece H.
  - destruct H as [<- | []]. reflexivity.
  - destruct (d =? c) eqn:E.
    + destruct H as [<- | H]; [reflexivity | auto].
    + destruct (split c s) as [|l ls].
      * destruct H as [<- | []]. simpl. now rewrite E.
      * destruct H as [<- | H].
        -- simpl. rewrite E. apply IH. now left.
        -- apply IH. now right.
Qed.

Lemma split_piece_chars c s piece x :
  In piece (split c s) -> In x piece -> In x s.
Proof.
  revert piece. induction s as [|d s IH]; simpl; intros piece H Hx.
  - destruct H as [<- | []]. destruct Hx.
  - destruct (d =? c).
    + destruct H as [<- | H]; [destruct Hx | right; eauto].
    + destruct (split c s) as [|l ls].
      * destruct H as [<- | []]. destruct Hx as [<- | []]. now left.
      * destruct H as [<- | H].
        -- destruct Hx as [<- | Hx]; [now left | right].
           apply (IH l); [now left | exact Hx].
        -- right. apply (IH piece); [now right | exact Hx].
Qed.

Lemma replace_free a b s : a <> b -> contains a (replace a b s) = false.
Proof.
  intros Hab. unfold replace. induction s as [|d s IH]; simpl; [reflexivity|].
  rewrite IH, orb_false_r. destruct (d =? a) eqn:E.
  - apply N.eqb_neq. congruence.
  - exact E.
Qed.

Lemma replace_idem a b s : a <> b -> replace a b (replace a b s) = replace a b s.
Proof.
  intros Hab. unfold replace. rewrite map_map. apply map_ext. intros d.
  destruct (d =? a) eqn:E; [|now rewrite E].
  apply N.eqb_neq in Hab. rewrite N.eqb_sym in Hab. now rewrite Hab.
Qed.

Lemma replace_back a b s : replace a b (replace b a s) = replace a b s.
Proof.
  unfold replace. rewrite map_map. apply map_ext. intros d.
  destruct (d =? b) eqn:E.
  - rewrite N.eqb_refl. apply N.eqb_eq in E. subst d.
    now destruct (b =? a) eqn:E'; [apply N.eqb_eq in E' |].
  - reflexivity.
Qed.

Lemma bullet_lines_In content b :
  In b (bullet_lines content) ->
  exists piece,
    b = strip piece /\ strip piece <> []
    /\ In piece (split LF (replace SEMICOLON LF content)).
Proof.
  unfold bullet_lines. intros H.
  apply in_map_iff in H as (piece & <- & H).
  apply filter_In in H as [H Hne]. exists piece. repeat split; [|exact H].
  now destruct (strip piece).
Qed.

End BulletFacts.

Section DeckFacts.

Variable xml_char_ok : N -> bool.

Lemma set_text_frame t sh sh' :
  set_text xml_char_ok t sh = Ok sh' -> frame_of sh' = frame_of sh.
Proof. unfold set_text. destruct (xml_ok _ t); [|discriminate]. now intros [= <-]. Qed.

Lemma set_title_cases title sl :
  (exists sl', set_title xml_char_ok title sl = Ok sl'
               /\ map frame_of sl' = map frame_of sl)
  \/ (set_title xml_char_ok title sl = Raise XML_ERROR
      /\ xml_ok xml_char_ok title = false).
Proof.
  induction sl as [|sh sl IH]; simpl; [left; eauto|].
  destruct (Nat.eqb (ph_idx sh) 0).
  - unfold set_text. destruct (xml_ok xml_char_ok title); simpl.
    + left. eexists. split; reflexivity.
    + right. now split.
  - destruct IH as [(sl' & -> & Hf) | [-> Hx]]; simpl.
    + left. eexists. split; [reflexivity|]. simpl. now rewrite Hf.
    + right. now split.
Qed.

Lemma fill_frame_cases content sh :
  (exists sh', fill_frame xml_char_ok content sh = Ok sh'
               /\ frame_of sh' = frame_of sh)
  \/ (fill_frame xml_char_ok content sh = Raise XML_ERROR
      /\ forallb (xml_ok xml_char_ok) (bullet_lines content) = false).
Proof.
  unfold fill_frame. destruct (bullet_lines content) as [|b bs] eqn:E.
  - left. eexists. split; reflexivity.
  - destruct (forallb (xml_ok xml_char_ok) (b :: bs)).
    + left. eexists. split; reflexivity.
    + right. now split.
Qed.

Lemma fill_body_cases content sl :
  (exists sl', fill_body xml_char_ok content sl = Ok sl'
               /\ map frame_of sl' = map frame_of sl)
  \/ (fill_body xml_char_ok content sl = Raise XML_ERROR
      /\ forallb (xml_ok xml_char_ok) (bullet_lines content) = false).
Proof.
  induction sl as [|sh sl IH]; simpl; [left; eauto|].
  destruct (is_placeholder sh && (ph_type sh =? 1)).
  - destruct (fill_frame_cases content sh) as [(sh' & -> & Hf) | [-> Hx]]; simpl.
    + left. eexists. split; [reflexivity|]. simpl. now rewrite Hf.
    + right. now split.
  - destruct IH as [(sl' & -> & Hf) | [-> Hx]]; simpl.
    + left. eexists. split; [reflexivity|]. simpl. now rewrite Hf.
    + right. now split.
Qed.

Lemma In_replace a b s x : In x (replace a b s) -> x = b \/ In x s.
Proof.
  unfold replace. intros H. apply in_map_iff in H as (c & <- & Hc).
  destruct (c =? a); [now left | now right].
Qed.

(** The characters of a bullet are characters of the content. *)
Lemma bullet_chars content b x :
  In b (bullet_lines content) -> In x b -> In x content.
Proof.
  intros Hb Hx. destruct (bullet_lines_In content b Hb) as (piece & -> & _ & Hp).
  apply In_strip in Hx.
  pose proof (split_piece_free _ _ _ Hp) as Hfree.
  apply (split_piece_chars _ _ _ _ Hp) in Hx as Hr.
  apply In_replace in Hr as [-> | Hr]; [|exact Hr].
  apply contains_In in Hx. congruence.
Qed.

Lemma bullets_ok content :
  xml_ok xml_char_ok content = true ->
  forallb (xml_ok xml_char_ok) (bullet_lines content) = true.
Proof.
  unfold xml_ok. intros H. rewrite forallb_forall in H.
  apply forallb_forall. intros b Hb. apply forallb_forall. intros x Hx.
  apply H. now apply (bullet_chars content b).
Qed.

Lemma slide_of_cases layout d :
  (exists sl, slide_of xml_char_ok layout d = Ok sl
              /\ map frame_of sl = map frame_of layout)
  \/ (slide_of xml_char_ok layout d = Raise XML_ERROR
      /\ texts_ok xml_char_ok d = false).
Proof.
  unfold slide_of, texts_ok.
  destruct (set_title_cases (title_of d) layout) as [(tl & -> & Ht) | [-> Hx]]; simpl.
  - destruct (fill_body_cases (content_of d) tl) as [(sl & -> & Hf) | [-> Hx]].
    + left. exists sl. split; [reflexivity | congruence].
    + right. split; [reflexivity|].
      destruct (xml_ok xml_char_ok (content_of d)) eqn:E; [|apply andb_false_r].
      apply bullets_ok in E. congruence.
  - right. split; [reflexivity|]. now rewrite Hx.
Qed.

Lemma slide_of_ok layout d :
  texts_ok xml_char_ok d = true ->
  exists sl, slide_of xml_char_ok layout d = Ok sl
             /\ map frame_of sl = map frame_of layout.
Proof.
  intros H. destruct (slide_of_cases layout d) as [Hs | [_ Hx]]; [exact Hs | congruence].
Qed.

Lemma slides_of_cases layout ds :
  (exists ss, slides_of xml_char_ok layout ds = Ok ss
              /\ Forall2 (fun d sl => slide_of xml_char_ok layout d = Ok sl) ds ss
              /\ map (map frame_of) ss
                 = repeat (map frame_of layout) (List.length ds))
  \/ (slides_of xml_char_ok layout ds = Raise XML_ERROR
      /\ forallb (texts_ok xml_char_ok) ds = false).
Proof.
  induction ds as [|d ds IH]; simpl.
  - left. exists []. repeat split. constructor.
  - destruct (slide_of_cases layout d) as [(sl & Hs & Hf) | [Hs Hx]]; rewrite Hs; simpl.
    + destruct IH as [(ss & -> & H2 & Hfs) | [-> Hx]]; simpl.
      * left. exists (sl :: ss). split; [reflexivity|]. split.
        -- now constructor.
        -- simpl. now rewrite Hf, Hfs.
      * right. split; [reflexivity|]. rewrite Hx. apply andb_false_r.
    + right. split; [reflexivity|]. now rewrite Hx.
Qed.

(** One iteration is: take the layout, make the slide, add it. *)
Lemma deck_step_eq index d prs :
  deck_step xml_char_ok index d prs
  = bind (if Nat.eqb index 0 then getitem (slide_layouts prs) 0
          else getitem (slide_layouts prs) 1)
      (fun layout =>
         bind (slide_of xml_char_ok layout d) (fun sl => Ok (add_slide sl prs))).
Proof.
  unfold deck_step, slide_of, title_of, content_of.
  destruct (if Nat.eqb index 0 then _ else _) as [layout|e]; simpl; [|reflexivity].
  now destruct (set_title xml_char_ok (default [] (d !! "title")) layout).
Qed.

Lemma deck_loop_cons index d ds prs :
  deck_loop xml_char_ok index (d :: ds) prs
  = bind (deck_step xml_char_ok index d prs)
      (fun prs' => deck_loop xml_char_ok (S index) ds prs').
Proof. reflexivity. Qed.

(** The iterations after the first are a map over the records. *)
Lemma deck_loop_later ds : forall index prs l0 l1 more,
  slide_layouts prs = l0 :: l1 :: more ->
  deck_loop xml_char_ok (S index) ds prs
  = bind (slides_of xml_char_ok l1 ds)
      (fun ss => Ok {| slide_layouts := slide_layouts prs;
                       prs_slides := prs_slides prs ++ ss |}).
Proof.
  induction ds as [|d ds IH]; intros index prs l0 l1 more Hl.
  - simpl. rewrite app_nil_r. now destruct prs.
  - rewrite deck_loop_cons, deck_step_eq, Hl.
    unfold getitem. change ((l0 :: l1 :: more) !! 1%nat) with (Some l1).
    cbn [Nat.eqb bind slides_of].
    destruct (slide_of xml_char_ok l1 d) as [sl|e]; cbn [bind]; [|reflexivity].
    rewrite (IH (S index) (add_slide sl prs) l0 l1 more Hl).
    destruct (slides_of xml_char_ok l1 ds) as [ss|e]; cbn [bind]; [|reflexivity].
    simpl. now rewrite Hl, <- app_assoc.
Qed.

(** The whole loop, with the two layouts in place. *)
Lemma deck_loop_eq l0 l1 more d ds :
  deck_loop xml_char_ok 0 (d :: ds) (Presentation (l0 :: l1 :: more))
  = bind (slide_of xml_char_ok l0 d)
      (fun s0 =>
         bind (slides_of xml_char_ok l1 ds)
           (fun ss => Ok {| slide_layouts := l0 :: l1 :: more;
                            prs_slides := s0 :: ss |})).
Proof.
  rewrite deck_loop_cons, deck_step_eq.
  unfold getitem.
  change (slide_layouts (Presentation (l0 :: l1 :: more))) with (l0 :: l1 :: more).
  change ((l0 :: l1 :: more) !! 0%nat) with (Some l0).
  cbn [Nat.eqb bind].
  destruct (slide_of xml_char_ok l0 d) as [s0|e]; cbn [bind]; [|reflexivity].
  now rewrite (deck_loop_later ds 0 (add_slide s0 (Presentation (l0 :: l1 :: more)))
                 l0 l1 more eq_refl).
Qed.

Lemma deck_step_defaults index slide_data prs :
  deck_step xml_char_ok index (with_defaults slide_data) prs
  = deck_step xml_char_ok index slide_data prs.
Proof.
  unfold deck_step, with_defaults.
  rewrite lookup_insert_eq.
  rewrite lookup_insert_ne by discriminate.
  rewrite lookup_insert_eq. reflexivity.
Qed.

Lemma deck_loop_defaults slides : forall index prs,
  deck_loop xml_char_ok index (map with_defaults slides) prs
  = deck_loop xml_char_ok index slides prs.
Proof.
  induction slides as [|d slides IH]; intros index prs; simpl; [reflexivity|].
  rewrite deck_step_defaults.
  destruct (deck_step xml_char_ok index d prs); simpl; [apply IH | reflexivity].
Qed.

(** What the loop gives for a non-empty list: the slides, or the error of
    the library at the first text it refuses. *)
Lemma deck_loop_cases l0 l1 more d ds :
  (exists s0 ss,
      deck_loop xml_char_ok 0 (d :: ds) (Presentation (l0 :: l1 :: more))
      = Ok {| slide_layouts := l0 :: l1 :: more; prs_slides := s0 :: ss |}
      /\ slide_of xml_char_ok l0 d = Ok s0
      /\ Forall2 (fun d sl => slide_of xml_char_ok l1 d = Ok sl) ds ss
      /\ map (map frame_of) (s0 :: ss)
         = map frame_of l0 :: repeat (map frame_of l1) (List.length ds))
  \/ (deck_loop xml_char_ok 0 (d :: ds) (Presentation (l0 :: l1 :: more))
      = Raise XML_ERROR
      /\ forallb (texts_ok xml_char_ok) (d :: ds) = false).
Proof.
  rewrite deck_loop_eq.
  destruct (slide_of_cases l0 d) as [(s0 & Hs & Hf) | [Hs Hx]]; rewrite Hs; cbn [bind].
  - destruct (slides_of_cases l1 ds) as [(ss & Hss & H2 & Hfs) | [Hss Hx]];
      rewrite Hss; cbn [bind].
    + left. exists s0, ss. split; [reflexivity|]. split; [reflexivity|].
      split; [exact H2|]. simpl. now rewrite Hf, Hfs.
    + right. split; [reflexivity|]. simpl. rewrite Hx. apply andb_false_r.
  - right. split; [reflexivity|]. simpl. now rewrite Hx.
Qed.

End DeckFacts.

Section FrameFacts.

Variable xml_char_ok : N -> bool.

Lemma is_body_frame sl sl' :
  map frame_of sl = map frame_of sl' ->
  forallb (fun sh => negb (is_body sh)) sl = forallb (fun sh => negb (is_body sh)) sl'.
Proof.
  revert sl'. induction sl as [|sh sl IH]; intros [|sh' sl'] H; simpl in *;
    try discriminate; [reflexivity|].
  unfold frame_of at 1 3 in H. injection H as Hp _ Ht H.
  rewrite (IH sl' H). unfold is_body. now rewrite Hp, Ht.
Qed.

Lemma fill_body_no_body content sl :
  forallb (fun sh => negb (is_body sh)) sl = true ->
  fill_body xml_char_ok content sl = Ok sl.
Proof.
  induction sl as [|sh sl IH]; simpl; [reflexivity|].
  intros H. apply andb_true_iff in H as [Hb H]. apply negb_true_iff in Hb.
  unfold is_body in Hb. rewrite Hb, (IH H). reflexivity.
Qed.

(** Without a body placeholder on the layout the content plays no part. *)
Lemma slide_of_no_body layout d other :
  forallb (fun sh => negb (is_body sh)) layout = true ->
  slide_of xml_char_ok layout (<["content" := other]> d)
  = slide_of xml_char_ok layout d.
Proof.
  intros H. unfold slide_of, title_of.
  rewrite (lookup_insert_ne d "content" "title") by discriminate.
  destruct (set_title_cases xml_char_ok (default [] (d !! "title")) layout)
    as [(tl & -> & Hf) | [-> _]]; cbn [bind]; [|reflexivity].
  rewrite <- (is_body_frame _ _ Hf) in H.
  now rewrite !fill_body_no_body.
Qed.

(** When the title shape is also the first body placeholder, a title the
    library takes leaves no trace. *)
Lemma slide_of_title_shape sh l1 d :
  ph_idx sh = O -> is_body sh = true ->
  xml_ok xml_char_ok (title_of d) = true ->
  slide_of xml_char_ok (sh :: l1) d
  = bind (fill_frame xml_char_ok (content_of d) sh) (fun sh' => Ok (sh' :: l1)).
Proof.
  intros Hi Hb Hx. unfold slide_of. cbn [set_title]. rewrite Hi.
  cbn [Nat.eqb]. unfold set_text. rewrite Hx. cbn [bind fill_body].
  unfold is_body in Hb. cbn [is_placeholder ph_type set_paragraphs]. rewrite Hb.
  unfold fill_frame. destruct (bullet_lines (content_of d)); [reflexivity|].
  now destruct (forallb _ _).
Qed.

Lemma slides_of_title_shape sh l1 ds ds' :
  ph_idx sh = O -> is_body sh = true ->
  Forall2 (fun d d' : gmap string (list N) =>
             d !! "content" = d' !! "content"
             /\ xml_ok xml_char_ok (title_of d) = true
             /\ xml_ok xml_char_ok (title_of d') = true) ds ds' ->
  slides_of xml_char_ok (sh :: l1) ds = slides_of xml_char_ok (sh :: l1) ds'.
Proof.
  intros Hi Hb H. induction H as [|d d' ds ds' (Hc & Hx & Hx') H IH]; [reflexivity|].
  cbn [slides_of].
  rewrite (slide_of_title_shape sh l1 d Hi Hb Hx),
    (slide_of_title_shape sh l1 d' Hi Hb Hx'), IH.
  unfold content_of. now rewrite Hc.
Qed.

End FrameFacts.

Section TextFacts.

Variable xml_char_ok : N -> bool.

Lemma In_before_first c s x : In x (before_first c s) -> In x s.
Proof.
  induction s as [|d s IH]; simpl; [tauto|].
  destruct (d =? c); simpl; [tauto | intuition].
Qed.

Lemma In_after_first c s x : In x (after_first c s) -> In x s.
Proof.
  induction s as [|d s IH]; simpl; [tauto|].
  destruct (d =? c); intuition.
Qed.

Lemma In_drop_while p s x : In x (drop_while p s) -> In x s.
Proof.
  induction s as [|d s IH]; simpl; [tauto|].
  destruct (p d); simpl; intuition.
Qed.

Lemma xml_ok_sub s t :
  (forall x, In x t -> In x s) ->
  xml_ok xml_char_ok s = true -> xml_ok xml_char_ok t = true.
Proof.
  unfold xml_ok. intros Hsub H. rewrite forallb_forall in H.
  apply forallb_forall. auto.
Qed.

Lemma texts_ok_mk_slide title body :
  texts_ok xml_char_ok (mk_slide title body)
  = xml_ok xml_char_ok title && xml_ok xml_char_ok body.
Proof.
  unfold texts_ok, title_of, content_of, mk_slide.
  rewrite lookup_insert_eq.
  rewrite lookup_insert_ne by discriminate.
  now rewrite lookup_singleton_eq.
Qed.

Lemma record_of_texts_ok line :
  xml_ok xml_char_ok line = true -> texts_ok xml_char_ok (record_of line) = true.
Proof.
  intros H. unfold record_of. rewrite texts_ok_mk_slide.
  apply andb_true_iff. split; apply (xml_ok_sub line); try exact H; intros x Hx.
  - now apply In_strip, In_before_first, In_after_first in Hx.
  - unfold lstrip_chars in Hx.
    now apply In_drop_while, In_strip, In_after_first, In_after_first in Hx.
Qed.

Lemma parse_outline_lines raw d :
  In d (parse_outline raw) ->
  d = fallback raw \/ exists line, In line (splitlines raw) /\ d = record_of line.
Proof.
  rewrite parse_outline_spec.
  destruct (map record_of (List.filter has_shape (splitlines raw))) as [|r rs] eqn:E.
  - intros [<- | []]. now left.
  - intros H. right. rewrite <- E in H. apply in_map_iff in H as (line & <- & Hl).
    apply filter_In in Hl as [Hl _]. eauto.
Qed.

(** The records of a text the library takes are records it takes. *)
Lemma parse_outline_texts_ok raw :
  xml_ok xml_char_ok raw = true ->
  xml_ok xml_char_ok (py "Pitch Deck") = true ->
  forallb (texts_ok xml_char_ok) (parse_outline raw) = true.
Proof.
  intros Hr Hp. apply forallb_forall. intros d Hd.
  destruct (parse_outline_lines raw d Hd) as [-> | (line & Hl & ->)].
  - unfold fallback. now rewrite texts_ok_mk_slide, Hp, Hr.
  - apply record_of_texts_ok. apply (xml_ok_sub raw); [|exact Hr].
    intros x Hx. now apply (splitlines_chars raw line x).
Qed.

Lemma xml_ok_strip t :
  xml_ok xml_char_ok t = true -> xml_ok xml_char_ok (strip t) = true.
Proof. apply xml_ok_sub. intros x. apply In_strip. Qed.

End TextFacts.

Section PipelineFacts.

Variable completion : Type.
Variable create : world -> request -> outcome completion.
Variable reply : completion -> outcome (list N).

(** What a returned text says about the call. *)
Lemma chat_completion_Ok_inv prompt api_key model w raw w' :
  _chat_completion completion create reply prompt api_key model w = (Ok raw, w') ->
  configured api_key w = true
  /\ (exists c text, reply c = Returns text /\ raw = strip text)
  /\ w' = send (chat_request prompt model)
            (set_api_key (py_or api_key (environ w !! "OPENAI_API_KEY")) w).
Proof.
  destruct (configured api_key w) eqn:H.
  - unfold _chat_completion.
    destruct (ensure_openai_Ok api_key w H) as [-> _].
    fold (chat_request prompt model).
    destruct (create _ _) as [c|exc|name]; try discriminate.
    destruct (reply c) as [text|exc|name] eqn:Er; try discriminate.
    intros [= <- <-]. split; [reflexivity|]. split; [eauto | reflexivity].
  - destruct (ensure_openai_not_Ok api_key w H) as [msg Hm].
    unfold _chat_completion. rewrite Hm. discriminate.
Qed.

Lemma outline_Ok_inv idea api_key w slides w' :
  generate_pitch_deck_outline completion create reply idea api_key w = (Ok slides, w') ->
  exists raw,
    _chat_completion completion create reply (outline_prompt idea) api_key
      DEFAULT_MODEL w = (Ok raw, w')
    /\ slides = parse_outline raw.
Proof.
  unfold generate_pitch_deck_outline.
  destruct (_chat_completion _ _ _ _ _ _ _) as [[raw|e] w1]; [|discriminate].
  intros [= <- <-]. eauto.
Qed.

End PipelineFacts.

(** C10, as stated, fails: a non-empty list whose only record lacks the
    ["content"] key makes [create_pitch_deck] raise a [ValueError] that is
    not the one of the empty list, when its title holds a character that
    the library refuses (here U+FFFF). *)
Lemma create_pitch_deck_missing_keys_counterexample :
  let record : gmap string (list N) := {[ "title" := [84; 65535] ]} in
  [record] <> []
  /\ record !! "content" = None
  /\ create_pitch_deck xml_char saves default_template [record] (py "deck.pptx") []
     = (Raise XML_ERROR, [])
  /\ XML_ERROR <> ValueError "No slides provided to create_pitch_deck().".
Proof.
  intros record. split; [discriminate|]. split; [reflexivity|].
  split; [vm_compute; reflexivity | discriminate].
Qed.

(** C10, as amended: for a non-empty list, with the two layouts the code
    asks for in place, a record without ["title"] or ["content"] is
    treated as the record with the empty string there: the call ends in
    the same way for both, so a missing key is never what makes it raise.
    An exception that leaves the call is the library's [ValueError] for a
    text it refuses or what [prs.save] raised; when the library takes
    every title and content and the save works, the deck is written. *)
Theorem create_pitch_deck_missing_keys (xml_char_ok : N -> bool)
    (save_error : list N -> presentation -> list (list N * presentation) -> option exn)
    (template : list (list shape))
    (slides : list (gmap string (list N))) (output_path : list N)
    (fs : list (list N * presentation)) :
  (2 <= List.length template)%nat ->
  slides <> [] ->
  create_pitch_deck xml_char_ok save_error template slides output_path fs
  = create_pitch_deck xml_char_ok save_error template (map with_defaults slides)
      output_path fs
  /\ (forall e,
        fst (create_pitch_deck xml_char_ok save_error template slides output_path fs)
        = Raise e ->
        e = XML_ERROR \/ exists prs, save_error output_path prs fs = Some e)
  /\ (forallb (texts_ok xml_char_ok) slides = true ->
      (forall prs, save_error output_path prs fs = None) ->
      exists prs,
        create_pitch_deck xml_char_ok save_error template slides output_path fs
        = (Ok tt, (output_path, prs) :: fs)).
Proof.
  intros Ht Hs.
  destruct template as [|l0 [|l1 more]]; simpl in Ht; try lia.
  destruct slides as [|d ds]; [congruence|].
  split; [|split].
  - unfold create_pitch_deck.
    change (map with_defaults (d :: ds)) with (with_defaults d :: map with_defaults ds).
    cbv iota.
    change (with_defaults d :: map with_defaults ds) with (map with_defaults (d :: ds)).
    now rewrite deck_loop_defaults.
  - intros e. unfold create_pitch_deck.
    destruct (deck_loop_cases xml_char_ok l0 l1 more d ds)
      as [(s0 & ss & -> & _) | [-> _]].
    + destruct (save_error output_path _ fs) as [e'|] eqn:E; [|discriminate].
      intros [= <-]. right. eauto.
    + intros [= <-]. now left.
  - intros Hok Hsave. unfold create_pitch_deck.
    destruct (deck_loop_cases xml_char_ok l0 l1 more d ds)
      as [(s0 & ss & -> & _) | [_ Hx]]; [|congruence].
    rewrite Hsave. eauto.
Qed.

Lemma create_pitch_deck_missing_keys_witness :
  let slides : list (gmap string (list N)) :=
    [ {[ "title" := py "Overview" ]}; ∅; {[ "content" := py "a; b" ]} ] in
  (2 <= List.length default_template)%nat
  /\ slides <> []
  /\ create_pitch_deck xml_char saves default_template slides (py "deck.pptx") []
     = create_pitch_deck xml_char saves default_template (map with_defaults slides)
         (py "deck.pptx") []
  /\ exists prs,
       create_pitch_deck xml_char saves default_template slides (py "deck.pptx") []
       = (Ok tt, [(py "deck.pptx", prs)]).
Proof.
  intros slides.
  assert (Ht : (2 <= List.length default_template)%nat) by (simpl; lia).
  assert (Hs : slides <> []) by discriminate.
  destruct (create_pitch_deck_missing_keys xml_char saves default_template slides
              (py "deck.pptx") [] Ht Hs) as (Ha & _ & Hb).
  split; [exact Ht|]. split; [exact Hs|]. split; [exact Ha|].
  apply Hb; reflexivity.
Defined.

Example deck_of_missing_keys :
  let slides : list (gmap string (list N)) := [ {[ "title" := py "Overview" ]}; ∅ ] in
  map (map paragraphs)
    (match deck_loop xml_char 0 slides (Presentation default_template) with
     | Ok prs => prs_slides prs
     | Raise _ => []
     end)
  = [ [ [ {| p_text := py "Overview"; p_level := 0 |} ];
        [ {| p_text := []; p_level := 0 |} ] ];
      [ [ {| p_text := []; p_level := 0 |} ];
        [ {| p_text := []; p_level := 0 |} ] ] ].
Proof. vm_compute. reflexivity. Qed.

(** X11: every bullet that [create_pitch_deck] puts on a slide is
    non-empty, trimmed, and holds neither a [;] nor a newline. *)
Theorem bullet_lines_clean (content b : list N) :
  In b (bullet_lines content) ->
  b <> [] /\ strip b = b
  /\ contains SEMICOLON b = false /\ contains LF b = false.
Proof.
  intros H. destruct (bullet_lines_In content b H) as (piece & -> & Hne & Hp).
  split; [exact Hne|]. split; [apply strip_idem|]. split.
  - apply contains_false_strip.
    destruct (contains SEMICOLON piece) eqn:E; [|reflexivity].
    apply contains_In in E. apply (split_piece_chars _ _ _ _ Hp) in E.
    apply contains_In in E. now rewrite replace_free in E.
  - apply contains_false_strip. now apply (split_piece_free _ _ _ Hp).
Qed.

Lemma bullet_lines_clean_witness :
  py "b c" <> [] /\ strip (py "b c") = py "b c"
  /\ contains SEMICOLON (py "b c") = false /\ contains LF (py "b c") = false.
Proof.
  apply (bullet_lines_clean (py "a;;  b c ; " ++ [LF] ++ py " d") (py "b c")).
  vm_compute. right. left. reflexivity.
Defined.

(** X12: in the content of a slide a [;] and a newline are the same
    separator: turning every [;] into a newline, or every newline into a
    [;], leaves the bullets as they are. *)
Theorem bullet_lines_separators (content : list N) :
  bullet_lines (replace SEMICOLON LF content) = bullet_lines content
  /\ bullet_lines (replace LF SEMICOLON content) = bullet_lines content.
Proof.
  unfold bullet_lines. split.
  - now rewrite replace_idem by discriminate.
  - now rewrite replace_back.
Qed.

(** X13: with the two layouts in place, when [create_pitch_deck] returns
    for a non-empty list it has put one file in front of the files that
    were there, holding one slide per record, in the order of the records:
    the slide of the first record is made from layout 0, the slide of each
    other record from layout 1, and each keeps the placeholders of its
    layout, only their text being set. *)
Theorem create_pitch_deck_slides (xml_char_ok : N -> bool)
    (save_error : list N -> presentation -> list (list N * presentation) -> option exn)
    (l0 l1 : list shape) (more : list (list shape))
    (d : gmap string (list N)) (ds : list (gmap string (list N)))
    (output_path : list N) (fs fs' : list (list N * presentation)) :
  create_pitch_deck xml_char_ok save_error (l0 :: l1 :: more) (d :: ds) output_path fs
  = (Ok tt, fs') ->
  exists s0 ss,
    fs' = (output_path,
           {| slide_layouts := l0 :: l1 :: more; prs_slides := s0 :: ss |}) :: fs
    /\ slide_of xml_char_ok l0 d = Ok s0
    /\ Forall2 (fun d sl => slide_of xml_char_ok l1 d = Ok sl) ds ss
    /\ map (map frame_of) (s0 :: ss)
       = map frame_of l0 :: repeat (map frame_of l1) (List.length ds).
Proof.
  unfold create_pitch_deck.
  destruct (deck_loop_cases xml_char_ok l0 l1 more d ds)
    as [(s0 & ss & -> & H0 & H2 & Hf) | [-> _]]; [|discriminate].
  destruct (save_error output_path _ fs); [discriminate|].
  intros [= <-]. exists s0, ss. now repeat split.
Qed.

Lemma create_pitch_deck_slides_witness :
  let d := mk_slide (py "Tea") (py "hot") in
  let ds := [mk_slide (py "Problem") (py "cold; stale"); mk_slide (py "Ask") (py "1M")] in
  let out := create_pitch_deck xml_char saves default_template (d :: ds)
               (py "deck.pptx") [] in
  fst out = Ok tt
  /\ exists s0 ss,
       snd out
       = [ (py "deck.pptx",
            {| slide_layouts := default_template; prs_slides := s0 :: ss |}) ]
       /\ slide_of xml_char title_slide_layout d = Ok s0
       /\ Forall2 (fun d sl => slide_of xml_char title_and_content_layout d = Ok sl)
            ds ss
       /\ map (map frame_of) (s0 :: ss)
          = map frame_of title_slide_layout
            :: repeat (map frame_of title_and_content_layout) (List.length ds).
Proof.
  intros d ds out. split; [reflexivity|].
  apply (create_pitch_deck_slides xml_char saves title_slide_layout
           title_and_content_layout [] d ds (py "deck.pptx") [] (snd out)).
  vm_compute. reflexivity.
Defined.

(** X14: when layout 0 has no placeholder that passes the body test (a
    placeholder of type 1), the content of the first record does not reach
    the document: any other content gives the same result. *)
Theorem first_slide_content_dropped (xml_char_ok : N -> bool)
    (save_error : list N -> presentation -> list (list N * presentation) -> option exn)
    (l0 : list shape) (more : list (list shape))
    (d : gmap string (list N)) (ds : list (gmap string (list N)))
    (other output_path : list N) (fs : list (list N * presentation)) :
  forallb (fun sh => negb (is_body sh)) l0 = true ->
  create_pitch_deck xml_char_ok save_error (l0 :: more)
    (<["content" := other]> d :: ds) output_path fs
  = create_pitch_deck xml_char_ok save_error (l0 :: more) (d :: ds) output_path fs.
Proof.
  intros H. unfold create_pitch_deck. rewrite !deck_loop_cons, !deck_step_eq.
  unfold getitem.
  change (slide_layouts (Presentation (l0 :: more)) !! 0%nat) with (Some l0).
  cbn [Nat.eqb bind].
  now rewrite (slide_of_no_body xml_char_ok l0 d other H).
Qed.

Lemma first_slide_content_dropped_witness :
  create_pitch_deck xml_char saves (title_slide_layout :: [title_and_content_layout])
    (<["content" := py "lost"]> (mk_slide (py "Tea") (py "hot; fresh")) :: [])
    (py "deck.pptx") []
  = create_pitch_deck xml_char saves (title_slide_layout :: [title_and_content_layout])
      (mk_slide (py "Tea") (py "hot; fresh") :: []) (py "deck.pptx") [].
Proof.
  apply (first_slide_content_dropped xml_char saves title_slide_layout
           [title_and_content_layout]
           (mk_slide (py "Tea") (py "hot; fresh")) [] (py "lost") (py "deck.pptx") []).
  reflexivity.
Defined.

(** X15: when the first shape of layout 1 is the title shape (index 0) and
    passes the body test (type 1), a title that the library takes, on any
    record but the first, does not reach the document: the text frame that
    received it is cleared and filled with the bullets.  Two lists that
    agree on the first record and on the contents of the others, all of
    whose later titles the library takes, give the same result. *)
Theorem later_titles_overwritten (xml_char_ok : N -> bool)
    (save_error : list N -> presentation -> list (list N * presentation) -> option exn)
    (l0 : list shape) (sh : shape) (l1 : list shape)
    (more : list (list shape)) (d : gmap string (list N))
    (ds ds' : list (gmap string (list N)))
    (output_path : list N) (fs : list (list N * presentation)) :
  ph_idx sh = O -> is_body sh = true ->
  Forall2 (fun d d' : gmap string (list N) =>
             d !! "content" = d' !! "content"
             /\ xml_ok xml_char_ok (title_of d) = true
             /\ xml_ok xml_char_ok (title_of d') = true) ds ds' ->
  create_pitch_deck xml_char_ok save_error (l0 :: (sh :: l1) :: more) (d :: ds)
    output_path fs
  = create_pitch_deck xml_char_ok save_error (l0 :: (sh :: l1) :: more) (d :: ds')
      output_path fs.
Proof.
  intros Hi Hb H. unfold create_pitch_deck. rewrite !deck_loop_eq.
  now rewrite (slides_of_title_shape xml_char_ok sh l1 ds ds' Hi Hb H).
Qed.

Lemma later_titles_overwritten_witness :
  create_pitch_deck xml_char saves default_template
    [mk_slide (py "Tea") (py "hot"); mk_slide (py "Problem") (py "cold; stale")]
    (py "deck.pptx") []
  = create_pitch_deck xml_char saves default_template
      [mk_slide (py "Tea") (py "hot"); mk_slide (py "Solution") (py "cold; stale")]
      (py "deck.pptx") [].
Proof.
  apply (later_titles_overwritten xml_char saves title_slide_layout
           {| is_placeholder := true; ph_idx := 0; ph_type := 1;
              paragraphs := [ {| p_text := []; p_level := 0 |} ] |}
           [ {| is_placeholder := true; ph_idx := 1; ph_type := 7;
                paragraphs := [ {| p_text := []; p_level := 0 |} ] |} ]
           [] (mk_slide (py "Tea") (py "hot"))
           [mk_slide (py "Problem") (py "cold; stale")]
           [mk_slide (py "Solution") (py "cold; stale")] (py "deck.pptx") []).
  - reflexivity.
  - reflexivity.
  - repeat constructor.
Defined.

(** X16: the slides that [generate_pitch_deck_outline] returns are never
    an empty list, so the guard of [create_pitch_deck] does not stop them;
    when the service answers only with text the library takes (the
    placeholder title "Pitch Deck" included), the two layouts are in place
    and the save works, the deck is written with one slide per record. *)
Theorem outline_feeds_deck (completion : Type)
    (create : world -> request -> outcome completion)
    (reply : completion -> outcome (list N))
    (xml_char_ok : N -> bool)
    (save_error : list N -> presentation -> list (list N * presentation) -> option exn)
    (idea : list N) (api_key : option (list N)) (w w' : world)
    (slides : list (gmap string (list N)))
    (template : list (list shape)) (output_path : list N)
    (fs : list (list N * presentation)) :
  (2 <= List.length template)%nat ->
  (forall c text, reply c = Returns text -> xml_ok xml_char_ok text = true) ->
  xml_ok xml_char_ok (py "Pitch Deck") = true ->
  (forall prs, save_error output_path prs fs = None) ->
  generate_pitch_deck_outline completion create reply idea api_key w
  = (Ok slides, w') ->
  slides <> []
  /\ exists prs,
       create_pitch_deck xml_char_ok save_error template slides output_path fs
       = (Ok tt, (output_path, prs) :: fs)
       /\ List.length (prs_slides prs) = List.length slides.
Proof.
  intros Ht Hr Hp Hsave H.
  pose proof (outline_slides_nonempty _ _ _ _ _ _ _ _ H) as Hne.
  split; [exact Hne|].
  apply outline_Ok_inv in H as (raw & H & ->).
  apply chat_completion_Ok_inv in H as (_ & (c & text & Hc & ->) & _).
  assert (Hok : forallb (texts_ok xml_char_ok) (parse_outline (strip text)) = true).
  { apply parse_outline_texts_ok; [|exact Hp]. apply xml_ok_strip. eauto. }
  destruct template as [|l0 [|l1 more]]; simpl in Ht; try lia.
  destruct (parse_outline (strip text)) as [|d ds]; [congruence|].
  unfold create_pitch_deck.
  destruct (deck_loop_cases xml_char_ok l0 l1 more d ds)
    as [(s0 & ss & -> & _ & H2 & _) | [_ Hx]]; [|congruence].
  rewrite Hsave. eexists. split; [reflexivity|].
  apply Forall2_length in H2. simpl. now rewrite H2.
Qed.

Lemma outline_feeds_deck_witness :
  let w := {| openai := Some None; environ := ∅; sent := [] |} in
  let create := fun (_ : world) (_ : request) => @Returns unit tt in
  let reply := fun _ : unit => @Returns (list N) (py "no outline here") in
  [fallback (py "no outline here")] <> []
  /\ exists prs,
       create_pitch_deck xml_char saves default_template
         [fallback (py "no outline here")] (py "deck.pptx") []
       = (Ok tt, [(py "deck.pptx", prs)])
       /\ List.length (prs_slides prs)
          = List.length [fallback (py "no outline here")].
Proof.
  intros w create reply.
  apply (outline_feeds_deck unit create reply xml_char saves (py "tea")
           (Some (py "sk-1")) w
           (send (chat_request (outline_prompt (py "tea")) DEFAULT_MODEL)
              (set_api_key (Some (py "sk-1")) w))
           [fallback (py "no outline here")] default_template (py "deck.pptx") []).
  - simpl. lia.
  - intros c text [= <-]. reflexivity.
  - reflexivity.
  - reflexivity.
  - reflexivity.
Defined.

(** ** cli.py: results *)

Section MainFacts.

Variable completion : Type.
Variable create : world -> request -> outcome completion.
Variable reply : completion -> outcome (list N).
Variable xml_char_ok : N -> bool.

(** A configured call to a service that answers every request [r] with the
    text [answer r]. *)
Lemma chat_completion_answered (answer : request -> list N) prompt api_key model w :
  configured api_key w = true ->
  (forall w r, exists c, create w r = Returns c /\ reply c = Returns (answer r)) ->
  exists w',
    _chat_completion completion create reply prompt api_key model w
    = (Ok (strip (answer (chat_request prompt model))), w')
    /\ configured api_key w' = true
    /\ sent w' = chat_request prompt model :: sent w.
Proof.
  intros H Ha. unfold _chat_completion.
  destruct (ensure_openai_Ok api_key w H) as [-> _].
  fold (chat_request prompt model).
  destruct (Ha (set_api_key (py_or api_key (environ w !! "OPENAI_API_KEY")) w)
              (chat_request prompt model)) as (c & -> & ->).
  eexists. split; [reflexivity|]. split; [|reflexivity].
  now apply configured_after.
Qed.

Lemma chat_completion_Ok_sent prompt api_key model w raw w' :
  _chat_completion completion create reply prompt api_key model w = (Ok raw, w') ->
  sent w' = chat_request prompt model :: sent w.
Proof.
  intros H. apply chat_completion_Ok_inv in H as (_ & _ & ->). reflexivity.
Qed.

Lemma outline_Ok_sent idea api_key w slides w' :
  generate_pitch_deck_outline completion create reply idea api_key w = (Ok slides, w') ->
  sent w' = chat_request (outline_prompt idea) DEFAULT_MODEL :: sent w.
Proof.
  intros H. apply outline_Ok_inv in H as (raw & H & _).
  now apply chat_completion_Ok_sent in H.
Qed.

Lemma create_pitch_deck_written save_error template slides output_path fs :
  (2 <= List.length template)%nat -> slides <> [] ->
  forallb (texts_ok xml_char_ok) slides = true ->
  (forall prs, save_error output_path prs fs = None) ->
  exists prs,
    create_pitch_deck xml_char_ok save_error template slides output_path fs
    = (Ok tt, (output_path, prs) :: fs)
    /\ List.length (prs_slides prs) = List.length slides.
Proof.
  intros Ht Hs Hok Hsave.
  destruct template as [|l0 [|l1 more]]; simpl in Ht; try lia.
  destruct slides as [|d ds]; [congruence|].
  unfold create_pitch_deck.
  destruct (deck_loop_cases xml_char_ok l0 l1 more d ds)
    as [(s0 & ss & -> & _ & H2 & _) | [_ Hx]]; [|congruence].
  rewrite Hsave. eexists. split; [reflexivity|].
  apply Forall2_length in H2. simpl. now rewrite H2.
Qed.

End MainFacts.



(** X18: [main] writes a file only after the four requests have gone to
    the service.  However the run ends, if it has written a text file or a
    deck then it has sent exactly the four requests, in the order market
    analysis, pricing tiers, landing page copy, pitch deck outline; a run
    that stops earlier leaves no file. *)
Theorem main_writes_after_requests (completion : Type)
    (create : world -> request -> outcome completion)
    (reply : completion -> outcome (list N))
    (xml_char_ok : N -> bool)
    (resolve : list N -> res (list N)) (joinpath : list N -> list N -> list N)
    (template : list (list shape)) (os_error : syscall -> system -> option exn)
    (idea output_dir : list N) (api_key : option (list N)) (s : system) :
  let s' := snd (main completion create reply xml_char_ok resolve joinpath template
                   os_error idea output_dir api_key s) in
  text_files s' <> text_files s \/ deck_files s' <> deck_files s ->
  sent (sys_world s')
  = [ chat_request (outline_prompt idea) DEFAULT_MODEL;
      chat_request (landing_prompt idea) DEFAULT_MODEL;
      chat_request (pricing_prompt idea) DEFAULT_MODEL;
      chat_request (market_prompt idea) DEFAULT_MODEL ] ++ sent (sys_world s).
Proof.
  assert (Stop : forall (s1 : system) (G : Prop),
            text_files s1 = text_files s -> deck_files s1 = deck_files s ->
            text_files s1 <> text_files s \/ deck_files s1 <> deck_files s -> G).
  { intros s1 G Ht Hd [Hn | Hn]; congruence. }
  unfold main, and_then, lift, mkdir, print, write_text, save_deck, in_world, in_decks.
  destruct (resolve output_dir) as [dir|e0]; [|now apply Stop].
  destruct (os_error (Mkdir dir) s); [now apply Stop|].
  destruct (os_error (Print _) _); [now apply Stop|].
  cbn [sys_world dirs text_files deck_files stdout].
  destruct (generate_market_analysis _ _ _ _ _ _) as [[a|e1] w1] eqn:E1;
    [|now apply Stop].
  apply chat_completion_Ok_sent in E1.
  destruct (os_error (Print _) _); [now apply Stop|].
  cbn [sys_world dirs text_files deck_files stdout].
  destruct (generate_pricing_tiers _ _ _ _ _ _) as [[b|e2] w2] eqn:E2;
    [|now apply Stop].
  apply chat_completion_Ok_sent in E2.
  destruct (os_error (Print _) _); [now apply Stop|].
  cbn [sys_world dirs text_files deck_files stdout].
  destruct (generate_landing_page_copy _ _ _ _ _ _) as [[c|e3] w3] eqn:E3;
    [|now apply Stop].
  apply chat_completion_Ok_sent in E3.
  destruct (os_error (Print _) _); [now apply Stop|].
  cbn [sys_world dirs text_files deck_files stdout].
  destruct (generate_pitch_deck_outline _ _ _ _ _ _) as [[slides|e4] w4] eqn:E4;
    [|now apply Stop].
  apply outline_Ok_sent in E4.
  assert (Hsent : sent w4
                  = [ chat_request (outline_prompt idea) DEFAULT_MODEL;
                      chat_request (landing_prompt idea) DEFAULT_MODEL;
                      chat_request (pricing_prompt idea) DEFAULT_MODEL;
                      chat_request (market_prompt idea) DEFAULT_MODEL ]
                    ++ sent (sys_world s))
    by (rewrite E4, E3, E2, E1; reflexivity).
  clear Stop. intros _.
  destruct (os_error (WriteText _ _) _); [cbn [snd sys_world]; exact Hsent|].
  cbn [sys_world dirs text_files deck_files stdout].
  destruct (os_error (WriteText _ _) _); [cbn [snd sys_world]; exact Hsent|].
  cbn [sys_world dirs text_files deck_files stdout].
  destruct (os_error (WriteText _ _) _); [cbn [snd sys_world]; exact Hsent|].
  cbn [sys_world dirs text_files deck_files stdout].
  destruct (create_pitch_deck _ _ _ _ _ _) as [[[]|e5] fs5];
    [|cbn [snd sys_world]; exact Hsent].
  cbn [sys_world dirs text_files deck_files stdout].
  destruct (os_error (Print _) _); [cbn [snd sys_world]; exact Hsent|].
  cbn [sys_world dirs text_files deck_files stdout].
  destruct (os_error (Print _) _); [cbn [snd sys_world]; exact Hsent|].
  cbn [sys_world dirs text_files deck_files stdout].
  destruct (os_error (Print _) _); [cbn [snd sys_world]; exact Hsent|].
  cbn [sys_world dirs text_files deck_files stdout].
  destruct (os_error (Print _) _); cbn [snd sys_world]; exact Hsent.
Qed.

Lemma main_writes_after_requests_witness :
  let s := {| sys_world := {| openai := Some None; environ := ∅; sent := [] |};
              dirs := []; text_files := []; deck_files := []; stdout := [] |} in
  let create := fun (_ : world) (r : request) => @Returns (list N) (user_prompt r) in
  let reply := fun c : list N => @Returns (list N) c in
  let resolve := fun p : list N => Ok (py "/home/ann/" ++ p)%list in
  let joinpath := fun a b : list N => (a ++ py "/" ++ b)%list in
  let os_error := fun (call : syscall) (_ : system) =>
                    match call with
                    | WriteText _ [] => Some (OSError "No space left on device")
                    | WriteText p _ =>
                        if contains 112 p then Some (OSError "No space left on device")
                        else None
                    | _ => None
                    end in
  let s' := snd (main (list N) create reply xml_char resolve joinpath default_template
                   os_error (py "tea") (py "out") (Some (py "sk-1")) s) in
  (text_files s' <> text_files s \/ deck_files s' <> deck_files s)
  /\ sent (sys_world s')
     = [ chat_request (outline_prompt (py "tea")) DEFAULT_MODEL;
         chat_request (landing_prompt (py "tea")) DEFAULT_MODEL;
         chat_request (pricing_prompt (py "tea")) DEFAULT_MODEL;
         chat_request (market_prompt (py "tea")) DEFAULT_MODEL ] ++ sent (sys_world s).
Proof.
  intros s create reply resolve joinpath os_error s'.
  assert (H : text_files s' <> text_files s \/ deck_files s' <> deck_files s)
    by (left; vm_compute; discriminate).
  split; [exact H|].
  exact (main_writes_after_requests (list N) create reply xml_char resolve joinpath
           default_template os_error (py "tea") (py "out") (Some (py "sk-1")) s H).
Defined.

(** X19: with a key, the two layouts, an operating system that carries out
    every request, and a service that answers every request [r] with a
    text [answer r] the library takes, [main] succeeds.  It makes the
    resolved output directory; it sends the four requests, in the order
    market analysis, pricing tiers, landing page copy, pitch deck outline;
    it writes the three trimmed answers to market_analysis.txt,
    pricing_tiers.txt and landing_page.txt and a deck with one slide per
    parsed record to pitch_deck.pptx, all under that directory; and it
    prints the four progress lines and the four summary lines. *)
Theorem main_success (completion : Type)
    (create : world -> request -> outcome completion)
    (reply : completion -> outcome (list N))
    (xml_char_ok : N -> bool)
    (resolve : list N -> res (list N)) (joinpath : list N -> list N -> list N)
    (template : list (list shape)) (os_error : syscall -> system -> option exn)
    (answer : request -> list N)
    (idea output_dir dir : list N) (api_key : option (list N)) (s : system) :
  configured api_key (sys_world s) = true ->
  (forall w r, exists c, create w r = Returns c /\ reply c = Returns (answer r)) ->
  (forall r, xml_ok xml_char_ok (answer r) = true) ->
  xml_ok xml_char_ok (py "Pitch Deck") = true ->
  (2 <= List.length template)%nat ->
  resolve output_dir = Ok dir ->
  (forall call s0, os_error call s0 = None) ->
  let market := chat_request (market_prompt idea) DEFAULT_MODEL in
  let pricing := chat_request (pricing_prompt idea) DEFAULT_MODEL in
  let landing := chat_request (landing_prompt idea) DEFAULT_MODEL in
  let outline := chat_request (outline_prompt idea) DEFAULT_MODEL in
  exists s' prs,
    main completion create reply xml_char_ok resolve joinpath template os_error
      idea output_dir api_key s = (Ok tt, s')
    /\ dirs s' = dir :: dirs s
    /\ sent (sys_world s') = [outline; landing; pricing; market] ++ sent (sys_world s)
    /\ text_files s'
       = [ (joinpath dir (py "landing_page.txt"), strip (answer landing));
           (joinpath dir (py "pricing_tiers.txt"), strip (answer pricing));
           (joinpath dir (py "market_analysis.txt"), strip (answer market)) ]
         ++ text_files s
    /\ deck_files s' = (joinpath dir (py "pitch_deck.pptx"), prs) :: deck_files s
    /\ List.length (prs_slides prs)
       = List.length (parse_outline (strip (answer outline)))
    /\ stdout s'
       = [ [10004] ++ py " Pitch deck written to " ++ joinpath dir (py "pitch_deck.pptx");
           [10004] ++ py " Landing page copy written to "
             ++ joinpath dir (py "landing_page.txt");
           [10004] ++ py " Pricing tiers written to "
             ++ joinpath dir (py "pricing_tiers.txt");
           [LF; 10004] ++ py " Market analysis written to "
             ++ joinpath dir (py "market_analysis.txt");
           py "Generating pitch deck outline...";
           py "Generating landing page copy...";
           py "Generating pricing tiers...";
           py "Generating market analysis..." ] ++ stdout s.
Proof.
  intros Hc Ha Hx Hp Ht Hres Hos market pricing landing outline.
  destruct (chat_completion_answered completion create reply answer
              (market_prompt idea) api_key DEFAULT_MODEL (sys_world s) Hc Ha)
    as (w1 & E1 & Hc1 & Hs1).
  destruct (chat_completion_answered completion create reply answer
              (pricing_prompt idea) api_key DEFAULT_MODEL w1 Hc1 Ha)
    as (w2 & E2 & Hc2 & Hs2).
  destruct (chat_completion_answered completion create reply answer
              (landing_prompt idea) api_key DEFAULT_MODEL w2 Hc2 Ha)
    as (w3 & E3 & Hc3 & Hs3).
  destruct (chat_completion_answered completion create reply answer
              (outline_prompt idea) api_key DEFAULT_MODEL w3 Hc3 Ha)
    as (w4 & E4 & Hc4 & Hs4).
  fold market in E1, Hs1. fold pricing in E2, Hs2. fold landing in E3, Hs3.
  fold outline in E4, Hs4.
  assert (Hne : parse_outline (strip (answer outline)) <> []).
  { rewrite parse_outline_spec.
    now destruct (map record_of (List.filter has_shape (splitlines _))). }
  assert (Hok : forallb (texts_ok xml_char_ok) (parse_outline (strip (answer outline)))
                = true).
  { apply parse_outline_texts_ok; [|exact Hp]. apply xml_ok_strip, Hx. }
  set (deck_path := joinpath dir (py "pitch_deck.pptx")).
  assert (Hd : forall s0 : system,
            exists prs,
              create_pitch_deck xml_char_ok (fun p prs _ => os_error (Save p prs) s0)
                template (parse_outline (strip (answer outline))) deck_path
                (deck_files s)
              = (Ok tt, (deck_path, prs) :: deck_files s)
              /\ List.length (prs_slides prs)
                 = List.length (parse_outline (strip (answer outline)))).
  { intros s0. apply create_pitch_deck_written; auto. }
  match goal with
  | |- exists s' prs, main _ _ _ _ _ _ _ _ _ _ _ _ = _ /\ _ =>
      unfold main, and_then, lift, mkdir, print, write_text, save_deck, in_world,
        in_decks, generate_market_analysis, generate_pricing_tiers,
        generate_landing_page_copy, generate_pitch_deck_outline
  end.
  rewrite Hres. rewrite !Hos.
  cbn [sys_world dirs text_files deck_files stdout].
  rewrite E1. rewrite ?Hos. cbn [sys_world dirs text_files deck_files stdout].
  rewrite E2. rewrite ?Hos. cbn [sys_world dirs text_files deck_files stdout].
  rewrite E3. rewrite ?Hos. cbn [sys_world dirs text_files deck_files stdout].
  rewrite E4. rewrite ?Hos. cbn [sys_world dirs text_files deck_files stdout].
  match goal with
  | |- context [create_pitch_deck _ (fun p prs _ => os_error (Save p prs) ?s0)] =>
      destruct (Hd s0) as (prs & Ed & Hl)
  end.
  fold deck_path. rewrite Ed. rewrite ?Hos.
  cbn [sys_world dirs text_files deck_files stdout].
  eexists _, prs. split; [reflexivity|].
  cbn [sys_world dirs text_files deck_files stdout].
  rewrite Hs4, Hs3, Hs2, Hs1. repeat split; try reflexivity. exact Hl.
Qed.

Lemma main_success_witness :
  let s := {| sys_world := {| openai := Some None;
                              environ := {[ "OPENAI_API_KEY" := py "sk-env" ]};
                              sent := [] |};
              dirs := []; text_files := []; deck_files := []; stdout := [] |} in
  let answer := fun _ : request => py " 1. Plan: ship; sell " in
  let create := fun (_ : world) (r : request) => @Returns request r in
  let reply := fun r : request => @Returns (list N) (answer r) in
  let resolve := fun p : list N => Ok (py "/home/ann/" ++ p)%list in
  let joinpath := fun a b : list N => (a ++ py "/" ++ b)%list in
  let dir := py "/home/ann/out" in
  let market := chat_request (market_prompt (py "tea")) DEFAULT_MODEL in
  let pricing := chat_request (pricing_prompt (py "tea")) DEFAULT_MODEL in
  let landing := chat_request (landing_prompt (py "tea")) DEFAULT_MODEL in
  let outline := chat_request (outline_prompt (py "tea")) DEFAULT_MODEL in
  exists s' prs,
    main request create reply xml_char resolve joinpath default_template obliging
      (py "tea") (py "out") None s = (Ok tt, s')
    /\ dirs s' = dir :: dirs s
    /\ sent (sys_world s') = [outline; landing; pricing; market] ++ sent (sys_world s)
    /\ text_files s'
       = [ (joinpath dir (py "landing_page.txt"), strip (answer landing));
           (joinpath dir (py "pricing_tiers.txt"), strip (answer pricing));
           (joinpath dir (py "market_analysis.txt"), strip (answer market)) ]
         ++ text_files s
    /\ deck_files s' = (joinpath dir (py "pitch_deck.pptx"), prs) :: deck_files s
    /\ List.length (prs_slides prs)
       = List.length (parse_outline (strip (answer outline)))
    /\ stdout s'
       = [ [10004] ++ py " Pitch deck written to " ++ joinpath dir (py "pitch_deck.pptx");
           [10004] ++ py " Landing page copy written to "
             ++ joinpath dir (py "landing_page.txt");
           [10004] ++ py " Pricing tiers written to "
             ++ joinpath dir (py "pricing_tiers.txt");
           [LF; 10004] ++ py " Market analysis written to "
             ++ joinpath dir (py "market_analysis.txt");
           py "Generating pitch deck outline...";
           py "Generating landing page copy...";
           py "Generating pricing tiers...";
           py "Generating market analysis..." ] ++ stdout s.
Proof.
  intros s answer create reply resolve joinpath dir.
  apply (main_success request create reply xml_char resolve joinpath default_template
           obliging answer (py "tea") (py "out") dir None s).
  - reflexivity.
  - intros w r. exists r. split; reflexivity.
  - intros r. reflexivity.
  - reflexivity.
  - simpl. lia.
  - reflexivity.
  - reflexivity.
Defined.
